(** * Modules/ESP.py: the ESP motion-controller protocol layer

    A shallow embedding of the classes [Motor], [Polarizer] and [ESP] of
    [src/Modules/ESP.py].  Python methods become functions in a small
    state-and-exception monad over a [world] that records, in order, every
    observable action of the program (transport writes and queries, log
    lines, sleeps) and holds the behaviour of the transport.

    Conventions:
    - [self.axis] is the axis number (the source comment at line 171 calls it
      "the axis number"); it is a Python [int], modelled as [Z], and
      [str(self.axis)] is its decimal rendering [str_int].
    - Python numbers (positions, bounds, velocities; [int] or [float]) are
      kept abstract behind the interface [PyNumber]: the code only adds
      them, compares them with [<=], formats them into a command and
      obtains them with [float(...)].
    - [tools.logprint] (module [Modules.tools]) only prints; a call is
      recorded as an [ELog] event. *)

From Stdlib Require Import ZArith String Ascii DecimalString List Lia.
From stdpp Require Import gmap strings.

Local Open Scope Z_scope.
Local Open Scope string_scope.

(** ** Python values used by the module *)

(** [str(n)] for a Python [int]. *)
Definition str_int (z : Z) : string := NilEmpty.string_of_int (Z.to_int z).

(** The one-character string holding a double quote. *)
Definition dquote : string := String "034"%char EmptyString.

(** [sub in s] on Python strings. *)
Fixpoint str_contains (sub s : string) : bool :=
  String.prefix sub s ||
  match s with
  | EmptyString => false
  | String _ s' => str_contains sub s'
  end.

(** [s[:-1]]: all but the last character; the empty string stays empty. *)
Fixpoint drop_last (s : string) : string :=
  match s with
  | EmptyString => EmptyString
  | String _ EmptyString => EmptyString
  | String c s' => String c (drop_last s')
  end.

(** The operations the module performs on Python numbers. *)
Class PyNumber (num : Type) := {
  py_add : num -> num -> num;            (* [x + y] *)
  py_le : num -> num -> bool;            (* [x <= y] *)
  py_int : Z -> num;                     (* an [int] literal *)
  py_float0 : num;                       (* the literal [0.0] *)
  py_format : num -> string;             (* [f'{x}'] *)
  py_float : string -> option num        (* [float(s)]; [None] is ValueError *)
}.

(** [x == y] on numbers, read through [<=]: two Python numbers, [int] or
    [float], are equal exactly when each is [<=] the other (a NaN is
    neither equal nor [<=] to anything). *)
Definition py_eq {num : Type} `{PyNumber num} (x y : num) : bool :=
  py_le x y && py_le y x.

(** What a method may return when it does not return a number or a bool:
    [None] or a string. *)
Inductive pyval :=
| PyNone
| PyStr (s : string).

(** The exceptions that can leave a method of the module. *)
Inductive exn :=
| KeyError (key : string)
| IndexError
| ValueError
| VisaIOError
| AttributeError
| UnboundLocalError
| RecursionError.

Inductive result (A : Type) :=
| Returns (a : A)
| Raises (e : exn).
Arguments Returns {A} a.
Arguments Raises {A} e.

(** ** The world: transport and observable actions *)

(** [self.instrument]: an open pyvisa resource, or the placeholder string
    ['fake instrument'] that [ESP.__init__] hands out in testflight mode. *)
Inductive device :=
| FakeInstrument
| Resource (handle : nat).

(** What the transport does with one call: it raises [pyvisa.VisaIOError]
    or it completes; a completed query carries the text read. *)
Inductive outcome :=
| Fails
| Replies (text : string).

Inductive event :=
| EWrite (handle : nat) (command : string)
| EQuery (handle : nat) (command : string)
| ESleep (seconds : Z)
| ELog (message : string) (colour : option string).

(** [oracle k] is the outcome of the [k]-th transport call of the run;
    [ncalls] counts the transport calls made so far; [trace] lists every
    action so far, oldest first. *)
Record world := {
  oracle : nat -> outcome;
  ncalls : nat;
  trace : list event
}.

Definition is_transport_call (e : event) : bool :=
  match e with
  | EWrite _ _ | EQuery _ _ => true
  | _ => false
  end.

Definition transport_calls (w : world) : list event :=
  List.filter is_transport_call (trace w).

Definition is_log (e : event) : bool :=
  match e with
  | ELog _ _ => true
  | _ => false
  end.

(** ** The monad of methods *)

Definition M (A : Type) : Type := world -> result A * world.

Definition ret {A} (a : A) : M A := fun w => (Returns a, w).

Definition raise {A} (e : exn) : M A := fun w => (Raises e, w).

Definition bind {A B} (m : M A) (k : A -> M B) : M B :=
  fun w =>
    match m w with
    | (Returns a, w') => k a w'
    | (Raises e, w') => (Raises e, w')
    end.

Declare Scope py_scope.
Delimit Scope py_scope with py.
Notation "x <- m ;; k" := (bind m (fun x => k))
  (at level 100, m at next level, right associativity) : py_scope.
Notation "m ;; k" := (bind m (fun _ => k))
  (at level 100, right associativity) : py_scope.
Local Open Scope py_scope.

(** [try: body  except pyvisa.VisaIOError: handler] *)
Definition except_VisaIOError {A} (body handler : M A) : M A :=
  fun w =>
    match body w with
    | (Raises VisaIOError, w') => handler w'
    | r => r
    end.

(** The world after one more action that does not reach the transport. *)
Definition after (w : world) (e : event) : world :=
  {| oracle := oracle w; ncalls := ncalls w; trace := trace w ++ [e] |}.

(** The world after one more transport call. *)
Definition after_call (w : world) (e : event) : world :=
  {| oracle := oracle w; ncalls := S (ncalls w); trace := trace w ++ [e] |}.

Definition emit (e : event) : M unit :=
  fun w => (Returns tt, after w e).

(** [tools.logprint(message, colour)] *)
Definition logprint (message : string) (colour : option string) : M unit :=
  emit (ELog message colour).

(** [time.sleep(seconds)] *)
Definition sleep (seconds : Z) : M unit := emit (ESleep seconds).

(** One call of the transport: the call is recorded, and its outcome is
    the next one the oracle holds. *)
Definition transport (e : event) : M string :=
  fun w =>
    match oracle w (ncalls w) with
    | Fails => (Raises VisaIOError, after_call w e)
    | Replies text => (Returns text, after_call w e)
    end.

(** [instrument.write(command)]; the placeholder string has no such
    method. *)
Definition instrument_write (i : device) (command : string) : M unit :=
  match i with
  | FakeInstrument => raise AttributeError
  | Resource h => transport (EWrite h command) ;; ret tt
  end.

(** [instrument.query(command)] *)
Definition instrument_query (i : device) (command : string) : M string :=
  match i with
  | FakeInstrument => raise AttributeError
  | Resource h => transport (EQuery h command)
  end.

(** A method [grows] the trace: it only appends to it. *)
Definition grows {A} (m : M A) : Prop :=
  forall w, exists l, trace (snd (m w)) = (trace w ++ l)%list.

(** [d[key]] on a dict with string keys. *)
Definition dict_get (d : gmap string string) (key : string) : M string :=
  match d !! key with
  | Some v => ret v
  | None => raise (KeyError key)
  end.

(** ** class Motor: tables *)

Definition COMMANDS : gmap string string :=
  list_to_map [
    ("define home", "DH");
    ("move to absolute position", "PA");
    ("move to relative position", "PR");
    ("read error code", "TE?");
    ("search for home", "OR");
    ("set home search mode", "OM");
    ("set velocity", "VA");
    ("wait for motion stop", "WS")
  ].

Definition ERROR_CODES : gmap string string :=
  list_to_map [
    ("1", "PCI COMMUNICATION TIME-OUT");
    ("7", "PARAMETER OUT OF RANGE");
    ("9", "AXIS NUMBER OUT OF RANGE");
    ("10", "MAXIMUM VELOCITY EXCEEDED");
    ("13", "MOTOR NOT ENABLED");
    ("37", "AXIS NUMBER MISSING");
    ("38", "COMMAND PARAMETER MISSING")
  ].

(** ** class Motor *)

Section Motor.

Context {num : Type} `{PyNumber num}.

(** The attributes [Motor.__init__] copies from its arguments, and
    [current_position], which exists only when the motor was built in
    testflight mode.  No method assigns an attribute after [__init__].
    [bounds] is the two-element list [[min, max]], read as [bounds[0]] and
    [bounds[1]]. *)
Record Motor := {
  name : string;
  instrument : device;
  axis : Z;
  bounds : num * num;
  velocity : num;
  testflight : bool;
  current_position : option num
}.

(** The [parameter] argument of [send_command]: a string (['']] by default)
    or a number. *)
Inductive pyarg :=
| ArgStr (s : string)
| ArgNum (x : num).

(** [f'{parameter}'] *)
Definition format_arg (parameter : pyarg) : string :=
  match parameter with
  | ArgStr s => s
  | ArgNum x => py_format x
  end.

(** The message logged by [write_command] and [query_command] when the
    transport raises. *)
Definition visa_error_message (self : Motor) (command : string)
    (attempt : Z) : string :=
  "Got a VisaIOError on device " +:+ dquote +:+ name self +:+ dquote +:+
  " while  executing command " +:+ dquote +:+ command +:+ dquote +:+
  " (attempt " +:+ str_int attempt +:+ ").".

Definition three_attempts_message : string :=
  "Three attempts failed. Will continue with next command.".

(** The world after a failed attempt of [write_command] or
    [query_command]: the transport call [e] and the log line. *)
Definition after_failure (self : Motor) (e : event) (command : string)
    (attempt : Z) (w : world) : world :=
  after (after_call w e)
    (ELog (visa_error_message self command attempt) (Some "red")).

(** The world after the third failed attempt. *)
Definition after_giving_up (self : Motor) (e : event) (command : string)
    (w : world) : world :=
  after (after_failure self e command 3
           (after_failure self e command 2
              (after_failure self e command 1 w)))
    (ELog three_attempts_message (Some "red")).

(** [Motor.write_command] (lines 189-202).  [fuel] bounds the depth of the
    recursion; [write_command] below supplies enough of it. *)
Fixpoint write_command_rec (fuel : nat) (self : Motor) (command : string)
    (attempt : Z) : M pyval :=
  except_VisaIOError
    (instrument_write (instrument self) command ;; ret PyNone)
    (logprint (visa_error_message self command attempt) (Some "red") ;;
     if (attempt <? 3)%Z then
       match fuel with
       | S fuel' =>
           write_command_rec fuel' self command (attempt + 1) ;;
           ret PyNone
       | O => raise RecursionError
       end
     else
       logprint three_attempts_message (Some "red") ;;
       ret (PyStr "VisaIOError")).

Definition write_command (self : Motor) (command : string) (attempt : Z)
    : M pyval :=
  write_command_rec (Z.to_nat (3 - attempt)) self command attempt.

(** [Motor.query_command] (lines 204-218). *)
Fixpoint query_command_rec (fuel : nat) (self : Motor) (command : string)
    (attempt : Z) : M string :=
  except_VisaIOError
    (instrument_query (instrument self) command)
    (logprint (visa_error_message self command attempt) (Some "red") ;;
     if (attempt <? 3)%Z then
       match fuel with
       | S fuel' => query_command_rec fuel' self command (attempt + 1)
       | O => raise RecursionError
       end
     else
       logprint three_attempts_message (Some "red") ;;
       ret "VisaIOError").

Definition query_command (self : Motor) (command : string) (attempt : Z)
    : M string :=
  query_command_rec (Z.to_nat (3 - attempt)) self command attempt.

(** Lines 173-174 and 147-148:
    [if err[0] == str(self.axis) and len(err) > 2: err = err[1:]].
    [err[0]] raises IndexError on the empty string. *)
Definition strip_axis_number (axis_number : Z) (err : string)
    : result string :=
  match err with
  | EmptyString => Raises IndexError
  | String c rest =>
      if String.eqb (String c EmptyString) (str_int axis_number)
         && (2 <? Z.of_nat (String.length err))%Z
      then Returns rest
      else Returns err
  end.

Definition lift_result {A} (r : result A) : M A := fun w => (r, w).

(** The wire string of lines 164-167. *)
Definition full_command_of (self : Motor) (command : string)
    (parameter : pyarg) : M string :=
  opcode <- dict_get COMMANDS command ;;
  let full_command := str_int (axis self) +:+ opcode +:+ format_arg parameter in
  if str_contains "move" command then
    wait_opcode <- dict_get COMMANDS "wait for motion stop" ;;
    let wait := str_int (axis self) +:+ wait_opcode +:+ "0" in
    ret (full_command +:+ ";" +:+ wait)
  else ret full_command.

(** Lines 171-187 of [Motor.send_command]: what is done with the answer
    [err] to the read-error-code query. *)
Definition check_error_code (self : Motor) (full_command err : string)
    : M bool :=
  err <- lift_result (strip_axis_number (axis self) err) ;;
  if negb (String.eqb err "0") then
    match ERROR_CODES !! err with
    | Some description =>
        logprint ("Error code " +:+ err +:+ ": " +:+ description +:+
                  " on device " +:+ dquote +:+ name self +:+ dquote +:+
                  " while executing command " +:+ dquote +:+
                  full_command +:+ dquote +:+ ".") (Some "red")
    | None =>
        logprint ("Error code " +:+ err +:+ " on device " +:+
                  name self +:+ ".") (Some "red")
    end ;;
    ret false
  else ret true.

(** [Motor.send_command] (lines 159-187). *)
Definition send_command (self : Motor) (command : string)
    (parameter : pyarg) : M bool :=
  if testflight self then ret true
  else
    sleep 1 ;;
    full_command <- full_command_of self command parameter ;;
    write_command self full_command 1 ;;
    read_error_code <- dict_get COMMANDS "read error code" ;;
    err <- query_command self read_error_code 1 ;;
    check_error_code self full_command err.

(** [Motor.send_ASCII_command] (lines 141-157). *)
Definition send_ASCII_command (self : Motor) (command : string) : M bool :=
  if testflight self then ret true
  else
    instrument_write (instrument self) command ;;
    read_error_code <- dict_get COMMANDS "read error code" ;;
    err <- instrument_query (instrument self) read_error_code ;;
    err <- lift_result (strip_axis_number (axis self) err) ;;
    if negb (String.eqb err "0") then
      match ERROR_CODES !! err with
      | Some description =>
          logprint ("Error code " +:+ err +:+ ": " +:+ description)
                   (Some "red")
      | None => logprint ("Error code " +:+ err) (Some "red")
      end ;;
      ret false
    else ret true.

(** [Motor.__init__] (lines 95-106). *)
Definition Motor_init (name : string) (instrument : device) (axis : Z)
    (bounds : num * num) (velocity : num) (testflight : bool) : M Motor :=
  let self := {| name := name; instrument := instrument; axis := axis;
                 bounds := bounds; velocity := velocity;
                 testflight := testflight; current_position := None |} in
  if testflight then
    ret {| name := name; instrument := instrument; axis := axis;
           bounds := bounds; velocity := velocity;
           testflight := testflight;
           current_position := Some py_float0 |}
  else
    send_command self "set velocity" (ArgNum velocity) ;;
    send_command self "set home search mode" (ArgNum (py_int 0)) ;;
    ret self.

(** [Motor.get_current_position] (lines 119-123). *)
Definition get_current_position (self : Motor) : M num :=
  if testflight self then
    match current_position self with
    | Some p => ret p
    | None => raise AttributeError
    end
  else
    text <- instrument_query (instrument self)
              (str_int (axis self) +:+ "TP?") ;;
    match py_float (drop_last text) with
    | Some p => ret p
    | None => raise ValueError
    end.

(** Lines 126-129 of [Motor.move]: the target of the move.  With any other
    [mode] the name [new_position] is unbound when line 131 reads it. *)
Definition new_position_of (self : Motor) (degrees : num) (mode : string)
    : M num :=
  if String.eqb mode "absolute" then ret degrees
  else if String.eqb mode "relative" then
    p <- get_current_position self ;;
    ret (py_add p degrees)
  else raise UnboundLocalError.

(** Line 131: [self.bounds[0] <= new_position <= self.bounds[1]]. *)
Definition allowed (self : Motor) (new_position : num) : bool :=
  py_le (fst (bounds self)) new_position
  && py_le new_position (snd (bounds self)).

(** [Motor.move] (lines 125-139).  The method has no [return] statement:
    it returns [None] on every path. *)
Definition move (self : Motor) (degrees : num) (mode : string)
    (verbose : bool) : M pyval :=
  new_position <- new_position_of self degrees mode ;;
  if allowed self new_position then
    (if verbose then
       logprint ("Moving axis " +:+ str_int (axis self) +:+
                 " to position " +:+ py_format new_position +:+
                 " degrees.") None
     else ret tt) ;;
    send_command self "move to absolute position" (ArgNum new_position) ;;
    ret PyNone
  else
    logprint ("Desired position " +:+ py_format new_position +:+
              " is out of operating bounds of axis " +:+
              str_int (axis self) +:+ ".") (Some "red") ;;
    ret PyNone.

(** *** Closed forms

    What a call with [attempt = 1] leaves behind, by cases on the next three
    outcomes of the transport.  These are not part of the source; the
    lemmas [write_command_closed] and [query_command_closed] show that the
    methods compute them. *)

Definition after_write_command (self : Motor) (h : nat) (command : string)
    (w : world) : world :=
  let e := EWrite h command in
  match oracle w (ncalls w) with
  | Replies _ => after_call w e
  | Fails =>
      match oracle w (S (ncalls w)) with
      | Replies _ => after_call (after_failure self e command 1 w) e
      | Fails =>
          match oracle w (S (S (ncalls w))) with
          | Replies _ =>
              after_call (after_failure self e command 2
                            (after_failure self e command 1 w)) e
          | Fails => after_giving_up self e command w
          end
      end
  end.

Definition query_command_outcome (self : Motor) (h : nat) (command : string)
    (w : world) : string * world :=
  let e := EQuery h command in
  match oracle w (ncalls w) with
  | Replies text => (text, after_call w e)
  | Fails =>
      match oracle w (S (ncalls w)) with
      | Replies text =>
          (text, after_call (after_failure self e command 1 w) e)
      | Fails =>
          match oracle w (S (S (ncalls w))) with
          | Replies text =>
              (text, after_call (after_failure self e command 2
                                   (after_failure self e command 1 w)) e)
          | Fails => ("VisaIOError", after_giving_up self e command w)
          end
      end
  end.

(** The wire grammar in the words of the specification:
    ["{axisId}{opcode}{parameter};{axisId}{waitOpcode}0"] for a motion
    command, ["{axisId}{opcode}{parameter}"] otherwise. *)
Definition wire_string (axisId opcode parameter waitOpcode : string)
    (motion : bool) : string :=
  if motion
  then axisId +:+ opcode +:+ parameter +:+ ";" +:+ axisId +:+ waitOpcode
       +:+ "0"
  else axisId +:+ opcode +:+ parameter.

(** The world in which an accepted move starts its [send_command]: [w]
    after the narration of lines 133-135, if any. *)
Definition narrated (self : Motor) (target : num) (verbose : bool)
    (w : world) : world :=
  if verbose
  then after w (ELog ("Moving axis " +:+ str_int (axis self) +:+
                      " to position " +:+ py_format target +:+
                      " degrees.") None)
  else w.

(** A sequence of [move] calls on one motor, each given by its arguments
    [(degrees, mode, verbose)]. *)
Fixpoint moves (self : Motor) (calls : list (num * string * bool))
    : M unit :=
  match calls with
  | [] => ret tt
  | (degrees, mode, verbose) :: rest =>
      move self degrees mode verbose ;; moves self rest
  end.

(** ** class Polarizer *)

Record Polarizer := {
  lin_polarizer : Motor;
  quart_lambda : Motor
}.

(** [Polarizer.__init__] (lines 222-230); the [name] argument is unused. *)
Definition Polarizer_init (inst1 inst2 : device) (ax1 ax2 : Z)
    (bounds : num * num) (velocity : num) (testflight : bool)
    : M Polarizer :=
  lin <- Motor_init "linear polarizer" inst1 ax1 bounds velocity testflight ;;
  quart <- Motor_init "quarter wave plate" inst2 ax2 bounds velocity
             testflight ;;
  ret {| lin_polarizer := lin; quart_lambda := quart |}.

(** [Polarizer.set] (lines 232-239). *)
Definition set (self : Polarizer) (degrees : num) (verbose : bool)
    : M pyval :=
  move (lin_polarizer self) degrees "absolute" verbose ;;
  p <- get_current_position (lin_polarizer self) ;;
  move (quart_lambda self) (py_add p (py_int 45)) "absolute" verbose.

End Motor.

Arguments Motor num : clear implicits.
Arguments Polarizer num : clear implicits.
Arguments pyarg num : clear implicits.

(** ** Running the model *)

(** A world in which nothing has happened yet. *)
Definition fresh (o : nat -> outcome) : world :=
  {| oracle := o; ncalls := 0; trace := [] |}.

(** A transport that answers its calls with the outcomes of [l], in order,
    and with [default] once [l] is used up. *)
Definition script (l : list outcome) (default : outcome) : nat -> outcome :=
  fun k => nth k l default.

(** Whole degrees: the Python numbers with an integral value, an [int]
    [n] or the [float] [n.0], in the range where [float] arithmetic on
    them is exact.  They serve to evaluate the model on concrete calls. *)
Module Whole.

Inductive t :=
| Int (n : Z)
| Float (n : Z).

Definition value (x : t) : Z :=
  match x with Int n | Float n => n end.

Definition add (x y : t) : t :=
  match x, y with
  | Int a, Int b => Int (a + b)
  | _, _ => Float (value x + value y)
  end.

Definition le (x y : t) : bool := (value x <=? value y)%Z.

Definition format (x : t) : string :=
  match x with
  | Int n => str_int n
  | Float n => str_int n +:+ ".0"
  end.

Definition digit_value (c : ascii) : option Z :=
  let n := Z.of_nat (nat_of_ascii c) in
  if ((48 <=? n) && (n <=? 57))%Z then Some (n - 48) else None.

(** Reads [ddd] or [ddd.000]: digits, then possibly a point and zeros. *)
Fixpoint read_digits (s : string) (acc : Z) (seen : bool) : option Z :=
  match s with
  | EmptyString => if seen then Some acc else None
  | String c rest =>
      match digit_value c with
      | Some d => read_digits rest (10 * acc + d) true
      | None =>
          if seen && Ascii.eqb c "."%char
             && forallb (Ascii.eqb "0"%char) (list_ascii_of_string rest)
          then Some acc else None
      end
  end.

Definition float_of_string (s : string) : option t :=
  match s with
  | String "-"%char rest => (fun n => Float (- n)) <$> read_digits rest 0 false
  | _ => Float <$> read_digits s 0 false
  end.

#[global] Instance whole_number : PyNumber t := {
  py_add := add;
  py_le := le;
  py_int := Int;
  py_float0 := Float 0;
  py_format := format;
  py_float := float_of_string
}.

End Whole.

(** ** Concrete motors and calls *)

Module Bench.

Definition half_turn : Whole.t * Whole.t := (Whole.Int (-180), Whole.Int 180).

(** Axis 1 of the controller behind resource 0, as [Motor('linear
    polarizer', inst, 1, [-180, 180], 4)] leaves it. *)
Definition real_motor : Motor Whole.t :=
  {| name := "linear polarizer"; instrument := Resource 0; axis := 1;
     bounds := half_turn; velocity := Whole.Int 4; testflight := false;
     current_position := None |}.

(** Axis 2 of the controller behind resource 1. *)
Definition quarter_motor : Motor Whole.t :=
  {| name := "quarter wave plate"; instrument := Resource 1; axis := 2;
     bounds := half_turn; velocity := Whole.Int 4; testflight := false;
     current_position := None |}.

Definition real_polarizer : Polarizer Whole.t :=
  {| lin_polarizer := real_motor; quart_lambda := quarter_motor |}.

(** A testflight motor, as [Motor('m', 'fake instrument', 1, [-180, 180],
    4, testflight=True)] leaves it. *)
Definition simulated_motor : Motor Whole.t :=
  {| name := "m"; instrument := FakeInstrument; axis := 1;
     bounds := half_turn; velocity := Whole.Int 4; testflight := true;
     current_position := Some (Whole.Float 0) |}.

(** A line feed, the character the position query's answer ends with
    here; [get_current_position] drops the last character of the answer. *)
Definition LF : string := String "010"%char EmptyString.

(** A controller that accepts the move of axis 1, reports no error, and
    then reports position 29.0 for axis 1. *)
Definition rounding_controller : nat -> outcome :=
  script [Replies EmptyString; Replies "0"; Replies ("29.0" +:+ LF)]
    (Replies "0").

(** A controller whose first answer is a position of 170.0. *)
Definition at_170 : nat -> outcome :=
  script [Replies ("170.0" +:+ LF)] (Replies "0").

(** A controller that answers every call, and reports no error. *)
Definition healthy : nat -> outcome := script [] (Replies "0").

(** A transport on which the first three calls fail. *)
Definition three_failures : nat -> outcome :=
  script [Fails; Fails; Fails] (Replies "0").

(** [m = Motor(..., testflight=True); m.move(10, 'relative');
    m.move(10, 'relative'); m.get_current_position()] *)
Definition two_relative_moves : M Whole.t :=
  (m <- Motor_init "m" FakeInstrument 1 half_turn (Whole.Int 4) true ;;
   move m (Whole.Int 10) "relative" true ;;
   move m (Whole.Int 10) "relative" true ;;
   get_current_position m)%py.

End Bench.

(** ** Motor.define_home *)

(** What [define_home] does on the console: [print(text)] and
    [input(prompt)]. *)
Inductive console :=
| Printed (text : string)
| Asked (prompt : string).

Definition newline : string := String "010"%char EmptyString.

Section DefineHome.

Context {num : Type} `{PyNumber num}.

(** [Motor.define_home] (lines 108-117).  [choice] is the line the user
    types at the prompt.  The method returns [None]; the value given here
    is what it has put on the console, in order. *)
Definition define_home (self : Motor num) (degrees : num) (choice : string)
    : M (list console) :=
  logprint ("New home sequence! " +:+ newline) (Some "yellow") ;;
  p <- get_current_position self ;;
  let dialogue :=
    [Printed ("You are about to redefine current position  " +:+
              py_format p +:+ " as " +:+ py_format degrees +:+ ".");
     Asked "Are you sure you want to make this change? (Y/N)"] in
  if String.eqb choice "Y" || String.eqb choice "y" then
    saved <- send_command self "define home" (ArgNum degrees) ;;
    (if saved : bool
     then logprint "New home position saved." (Some "green")
     else logprint "Failed to set new home position." (Some "red")) ;;
    ret dialogue
  else ret dialogue.

(** The console dialogue of [define_home] when the position read is [p]. *)
Definition home_dialogue (p degrees : num) : list console :=
  [Printed ("You are about to redefine current position  " +:+
            py_format p +:+ " as " +:+ py_format degrees +:+ ".");
   Asked "Are you sure you want to make this change? (Y/N)"].

End DefineHome.

(** ** Counting attempts *)

(** The number of attempts a call with [attempt = 1] makes when [n]
    transport calls have been made before it: it stops at the first attempt
    that does not fail, and after the third in any case. *)
Definition attempts (o : nat -> outcome) (n : nat) : nat :=
  match o n with
  | Replies _ => 1
  | Fails => match o (S n) with
             | Replies _ => 2
             | Fails => 3
             end
  end.

(** ** class ESP *)

(** ['\t'.join(devices)] *)
Fixpoint join_tab (devices : list string) : string :=
  match devices with
  | [] => EmptyString
  | [device] => device
  | device :: rest => device +:+ String "009"%char (join_tab rest)
  end.

(** [c in s] for a character [c]. *)
Fixpoint occurs (c : ascii) (s : string) : bool :=
  match s with
  | EmptyString => false
  | String x s' => Ascii.eqb c x || occurs c s'
  end.

Module ESP.

(** An element of [self.instruments]: the string ['fake instrument'], or
    the resource [rm.open_resource(match)] returned, with the attributes it
    has been given ([None] until they are set). *)
Inductive instrument :=
| Fake
| Opened (resource_name : option string)
         (read_termination write_termination : option string)
         (timeout : option Z).

(** What the class does outside itself. *)
Inductive action :=
| Log (message : string) (colour : option string)
| NewManager
| ListResources
| OpenResource (resource_name : option string)
| Close (i : instrument)
| CloseManager.

(** What the class takes from outside: [sys.platform], the answer of
    [rm.list_resources()], the exception [rm.open_resource(name)] raises if
    it raises one, and the texts of the objects it formats into its log
    lines ([tools.bcolors.yellow] is of the absent module [tools]).  The
    other calls of pyvisa are taken to return. *)
Record environment := {
  platform : string;
  resources : list string;
  open_error : option string -> option exn;
  manager_text : string;
  devices_text : list string -> string;
  identifiers_text : list string -> string;
  instrument_text : instrument -> string;
  yellow : string -> string
}.

Definition READ_TERMINATION : string := String "013"%char EmptyString.
Definition WRITE_TERMINATION : string := String "013"%char EmptyString.
Definition TIMEOUT : Z := 60000.

(** The attributes of an [ESP] object; [rm] exists only when a resource
    manager was created. *)
Record t := {
  testflight : bool;
  instruments : list instrument;
  rm : bool
}.

(** Methods run over the list of the actions so far, oldest first. *)
Definition V (A : Type) : Type := list action -> result A * list action.

Definition vret {A} (a : A) : V A := fun acts => (Returns a, acts).

Definition vraise {A} (e : exn) : V A := fun acts => (Raises e, acts).

Definition vbind {A B} (m : V A) (k : A -> V B) : V B :=
  fun acts =>
    match m acts with
    | (Returns a, acts') => k a acts'
    | (Raises e, acts') => (Raises e, acts')
    end.

Definition act (a : action) : V unit :=
  fun acts => (Returns tt, (acts ++ [a])%list).

Declare Scope visa_scope.
Delimit Scope visa_scope with visa.
Notation "x <- m ;; k" := (vbind m (fun x => k))
  (at level 100, m at next level, right associativity) : visa_scope.
Notation "m ;; k" := (vbind m (fun _ => k))
  (at level 100, right associativity) : visa_scope.
Local Open Scope visa_scope.

Section Methods.

Variable env : environment.

(** [rm.open_resource(name)] *)
Definition open_resource (resource_name : option string) : V instrument :=
  act (OpenResource resource_name) ;;
  match open_error env resource_name with
  | Some e => vraise e
  | None => vret (Opened resource_name None None None)
  end.

(** Lines 55-57: the three attribute assignments. *)
Definition configure (i : instrument) : instrument :=
  match i with
  | Fake => Fake
  | Opened resource_name _ _ _ =>
      Opened resource_name (Some READ_TERMINATION) (Some WRITE_TERMINATION)
        (Some TIMEOUT)
  end.

(** [ESP.list_devices] (lines 34-39); [None] is Python's [None]. *)
Definition list_devices (self : t) : V (option (list string)) :=
  if negb (testflight self) then
    act ListResources ;;
    let devices := resources env in
    act (Log ("Resource manager used:     " +:+ manager_text env) None) ;;
    act (Log ("Detected devices:          " +:+ devices_text env devices)
           None) ;;
    vret (Some devices)
  else vret None.

(** The loop of [ESP.connect] (lines 47-62). *)
Fixpoint connect_loop (identifiers devices : list string)
    (instruments : list instrument) : V (list instrument) :=
  match identifiers with
  | [] => vret instruments
  | identifier :: rest =>
      if str_contains identifier (join_tab devices) then
        let found :=
          List.find (fun device => str_contains identifier device)
            devices in
        instrument <- open_resource found ;;
        connect_loop rest devices
          (instruments ++ [configure instrument])%list
      else
        act (Log ("Cannot find device with id " +:+ identifier)
               (Some "red")) ;;
        connect_loop rest devices instruments
  end.

(** [ESP.connect] (lines 41-63). *)
Definition connect (self : t) (identifiers devices : list string)
    : V (option (list instrument)) :=
  if negb (testflight self) then
    act (Log ("Initializing new connections with ESP with identifiers:" +:+
              "      " +:+ identifiers_text env identifiers +:+ ".")
           None) ;;
    instruments <- connect_loop identifiers devices [] ;;
    vret (Some instruments)
  else vret None.

(** [ESP.__init__] (lines 16-32); the [name] argument is unused.  In the
    last branch [self.testflight] is false, so that [list_devices] and
    [connect] return a list. *)
Definition init (identifiers : list string) (testflight : bool) : V t :=
  if testflight then
    act (Log ("Initializing " +:+ yellow env "fictional" +:+
              " connection with ESP.") None) ;;
    vret {| testflight := true;
            instruments := repeat Fake (List.length identifiers);
            rm := false |}
  else if negb (String.eqb (platform env) "win32") then
    act (Log ("Not running on Windows platform. Turning on " +:+
              "testflight mode.") (Some "yellow")) ;;
    vret {| testflight := true;
            instruments := repeat Fake (List.length identifiers);
            rm := false |}
  else
    act NewManager ;;
    let self := {| testflight := false; instruments := []; rm := true |} in
    devices <- list_devices self ;;
    instruments <- connect self identifiers (default [] devices) ;;
    vret {| testflight := false; instruments := default [] instruments;
            rm := true |}.

(** [instrument.close()]; a string has no such method. *)
Definition close (i : instrument) : V unit :=
  match i with
  | Fake => vraise AttributeError
  | Opened _ _ _ _ => act (Close i)
  end.

(** The loop of [ESP.__del__] (lines 67-69). *)
Fixpoint close_all (instruments : list instrument) : V unit :=
  match instruments with
  | [] => vret tt
  | i :: rest =>
      act (Log ("Disconnecting " +:+ instrument_text env i)
             (Some "yellow")) ;;
      close i ;;
      close_all rest
  end.

(** [ESP.__del__] (lines 65-71). *)
Definition del (self : t) : V unit :=
  if negb (testflight self) then
    close_all (instruments self) ;;
    act (Log "Disconnecting resource manager" (Some "yellow")) ;;
    (if rm self then act CloseManager else vraise AttributeError)
  else vret tt.

End Methods.

End ESP.

(** The tab character. *)
Definition tab : ascii := "009"%char.

(** *** [ESP.connect] in closed form

    These are not part of the source; [connect_returns] shows that
    [connect] computes them when no [open_resource] raises. *)

(** The test of line 49: [identifier in '\t'.join(devices)]. *)
Definition listed (devices : list string) (identifier : string) : bool :=
  str_contains identifier (join_tab devices).

(** The [match] of lines 50-51: the first device that contains the
    identifier, or [None]. *)
Definition first_match (devices : list string) (identifier : string)
    : option string :=
  List.find (fun device => str_contains identifier device) devices.

Definition connect_instruments (devices identifiers : list string)
    : list ESP.instrument :=
  map (fun identifier =>
         ESP.Opened (first_match devices identifier)
           (Some ESP.READ_TERMINATION) (Some ESP.WRITE_TERMINATION)
           (Some ESP.TIMEOUT))
    (List.filter (listed devices) identifiers).

Definition connect_actions (devices identifiers : list string)
    : list ESP.action :=
  map (fun identifier =>
         if listed devices identifier
         then ESP.OpenResource (first_match devices identifier)
         else ESP.Log ("Cannot find device with id " +:+ identifier)
                (Some "red"))
    identifiers.

(** What [__del__] does for one instrument. *)
Definition disconnect_actions (env : ESP.environment) (i : ESP.instrument)
    : list ESP.action :=
  [ESP.Log ("Disconnecting " +:+ ESP.instrument_text env i) (Some "yellow");
   ESP.Close i].

(** A Windows machine with two controllers, on which every resource
    opens. *)
Definition two_controllers : ESP.environment :=
  {| ESP.platform := "win32";
     ESP.resources := ["GPIB0::1::INSTR"; "GPIB0::2::INSTR"];
     ESP.open_error := fun _ => None;
     ESP.manager_text := "Resource Manager of Visa Library";
     ESP.devices_text := fun _ => "(...)";
     ESP.identifiers_text := fun _ => "[...]";
     ESP.instrument_text := fun _ => "GPIBInstrument";
     ESP.yellow := fun s => s |}.

(** * Properties *)

(** ** Retrying I/O: [write_command] and [query_command] *)

Section Retry.

Context {num : Type} `{PyNumber num}.
Implicit Types (self : Motor num) (w : world) (command : string).

Lemma transport_replies e w text :
  oracle w (ncalls w) = Replies text ->
  transport e w = (Returns text, after_call w e).
Proof. intros Ho. unfold transport. now rewrite Ho. Qed.

Lemma transport_fails e w :
  oracle w (ncalls w) = Fails ->
  transport e w = (Raises VisaIOError, after_call w e).
Proof. intros Ho. unfold transport. now rewrite Ho. Qed.

Lemma instrument_write_replies h command w text :
  oracle w (ncalls w) = Replies text ->
  instrument_write (Resource h) command w
  = (Returns tt, after_call w (EWrite h command)).
Proof.
  intros Ho. unfold instrument_write, bind.
  now rewrite (transport_replies _ _ _ Ho).
Qed.

Lemma instrument_write_fails h command w :
  oracle w (ncalls w) = Fails ->
  instrument_write (Resource h) command w
  = (Raises VisaIOError, after_call w (EWrite h command)).
Proof.
  intros Ho. unfold instrument_write, bind.
  now rewrite (transport_fails _ _ Ho).
Qed.

(** One step of [write_command]: the three ways an attempt can go. *)
Lemma write_command_rec_done fuel self h command attempt w text :
  instrument self = Resource h ->
  oracle w (ncalls w) = Replies text ->
  write_command_rec fuel self command attempt w
  = (Returns PyNone, after_call w (EWrite h command)).
Proof.
  intros Hi Ho.
  destruct fuel; simpl; unfold except_VisaIOError, bind at 1; rewrite Hi;
    now rewrite (instrument_write_replies _ _ _ _ Ho).
Qed.

Lemma write_command_rec_again fuel self h command attempt w :
  instrument self = Resource h ->
  oracle w (ncalls w) = Fails ->
  attempt < 3 ->
  write_command_rec (S fuel) self command attempt w
  = (write_command_rec fuel self command (attempt + 1) ;; ret PyNone)
      (after_failure self (EWrite h command) command attempt w).
Proof.
  intros Hi Ho Hlt. apply Z.ltb_lt in Hlt.
  simpl. unfold except_VisaIOError, bind at 1. rewrite Hi.
  rewrite (instrument_write_fails _ _ _ Ho).
  unfold bind at 1. unfold logprint, emit. now rewrite Hlt.
Qed.

Lemma write_command_rec_gives_up fuel self h command attempt w :
  instrument self = Resource h ->
  oracle w (ncalls w) = Fails ->
  3 <= attempt ->
  write_command_rec fuel self command attempt w
  = (Returns (PyStr "VisaIOError"),
     after (after_failure self (EWrite h command) command attempt w)
       (ELog three_attempts_message (Some "red"))).
Proof.
  intros Hi Ho Hge. apply Z.ltb_ge in Hge.
  destruct fuel; simpl; unfold except_VisaIOError, bind at 1; rewrite Hi;
    rewrite (instrument_write_fails _ _ _ Ho);
    unfold bind, logprint, emit; now rewrite Hge.
Qed.

(** One step of [query_command]. *)
Lemma query_command_rec_done fuel self h command attempt w text :
  instrument self = Resource h ->
  oracle w (ncalls w) = Replies text ->
  query_command_rec fuel self command attempt w
  = (Returns text, after_call w (EQuery h command)).
Proof.
  intros Hi Ho.
  destruct fuel; simpl; unfold except_VisaIOError, instrument_query;
    rewrite Hi; now rewrite (transport_replies _ _ _ Ho).
Qed.

Lemma query_command_rec_again fuel self h command attempt w :
  instrument self = Resource h ->
  oracle w (ncalls w) = Fails ->
  attempt < 3 ->
  query_command_rec (S fuel) self command attempt w
  = query_command_rec fuel self command (attempt + 1)
      (after_failure self (EQuery h command) command attempt w).
Proof.
  intros Hi Ho Hlt. apply Z.ltb_lt in Hlt.
  simpl. unfold except_VisaIOError, instrument_query. rewrite Hi.
  rewrite (transport_fails _ _ Ho).
  unfold bind at 1. unfold logprint, emit. now rewrite Hlt.
Qed.

Lemma query_command_rec_gives_up fuel self h command attempt w :
  instrument self = Resource h ->
  oracle w (ncalls w) = Fails ->
  3 <= attempt ->
  query_command_rec fuel self command attempt w
  = (Returns "VisaIOError",
     after (after_failure self (EQuery h command) command attempt w)
       (ELog three_attempts_message (Some "red"))).
Proof.
  intros Hi Ho Hge. apply Z.ltb_ge in Hge.
  destruct fuel; simpl; unfold except_VisaIOError, instrument_query;
    rewrite Hi; rewrite (transport_fails _ _ Ho);
    unfold bind, logprint, emit; now rewrite Hge.
Qed.

(** With the fuel that [query_command] and [write_command] supply the
    recursion never runs dry, whatever [attempt] is: the call returns, after
    at least one and at most [max 1 (4 - attempt)] transport calls. *)
Lemma query_command_rec_returns fuel self h command attempt w :
  instrument self = Resource h ->
  (Z.to_nat (3 - attempt) <= fuel)%nat ->
  exists text w',
    query_command_rec fuel self command attempt w = (Returns text, w')
    /\ oracle w' = oracle w
    /\ (ncalls w < ncalls w' <= ncalls w + S (Z.to_nat (3 - attempt)))%nat.
Proof.
  intros Hi. revert attempt w.
  induction fuel as [|fuel IH]; intros attempt w Hfuel;
    destruct (oracle w (ncalls w)) as [|text] eqn:Ho.
  - rewrite (query_command_rec_gives_up _ _ h) by (done || lia).
    eexists _, _. split; [reflexivity|]. simpl. split; [reflexivity|lia].
  - rewrite (query_command_rec_done _ _ h _ _ _ text) by done.
    eexists _, _. split; [reflexivity|]. simpl. split; [reflexivity|lia].
  - destruct (Z_lt_le_dec attempt 3) as [Hlt|Hge].
    + rewrite (query_command_rec_again _ _ h) by done.
      destruct (IH (attempt + 1)
                  (after_failure self (EQuery h command) command attempt w))
        as (text & w' & Hq & Hor & Hn); [lia|].
      exists text, w'. split; [exact Hq|]. simpl in Hor, Hn.
      split; [exact Hor|lia].
    + rewrite (query_command_rec_gives_up _ _ h) by done.
      eexists _, _. split; [reflexivity|]. simpl. split; [reflexivity|lia].
  - rewrite (query_command_rec_done _ _ h _ _ _ text) by done.
    eexists _, _. split; [reflexivity|]. simpl. split; [reflexivity|lia].
Qed.

Lemma write_command_rec_returns fuel self h command attempt w :
  instrument self = Resource h ->
  (Z.to_nat (3 - attempt) <= fuel)%nat ->
  exists v w',
    write_command_rec fuel self command attempt w = (Returns v, w')
    /\ oracle w' = oracle w
    /\ (ncalls w < ncalls w' <= ncalls w + S (Z.to_nat (3 - attempt)))%nat.
Proof.
  intros Hi. revert attempt w.
  induction fuel as [|fuel IH]; intros attempt w Hfuel;
    destruct (oracle w (ncalls w)) as [|text] eqn:Ho.
  - rewrite (write_command_rec_gives_up _ _ h) by (done || lia).
    eexists _, _. split; [reflexivity|]. simpl. split; [reflexivity|lia].
  - rewrite (write_command_rec_done _ _ h _ _ _ text) by done.
    eexists _, _. split; [reflexivity|]. simpl. split; [reflexivity|lia].
  - destruct (Z_lt_le_dec attempt 3) as [Hlt|Hge].
    + rewrite (write_command_rec_again _ _ h) by done.
      destruct (IH (attempt + 1)
                  (after_failure self (EWrite h command) command attempt w))
        as (v & w' & Hq & Hor & Hn); [lia|].
      exists PyNone, w'. unfold bind. rewrite Hq. split; [reflexivity|].
      simpl in Hor, Hn. split; [exact Hor|lia].
    + rewrite (write_command_rec_gives_up _ _ h) by done.
      eexists _, _. split; [reflexivity|]. simpl. split; [reflexivity|lia].
  - rewrite (write_command_rec_done _ _ h _ _ _ text) by done.
    eexists _, _. split; [reflexivity|]. simpl. split; [reflexivity|lia].
Qed.

(** *** Calls as the module makes them: [attempt = 1] *)

Lemma query_command_first_try self h command w text :
  instrument self = Resource h ->
  oracle w (ncalls w) = Replies text ->
  query_command self command 1 w
  = (Returns text, after_call w (EQuery h command)).
Proof. intros Hi Ho. now apply query_command_rec_done. Qed.

Lemma query_command_second_try self h command w text :
  instrument self = Resource h ->
  oracle w (ncalls w) = Fails ->
  oracle w (S (ncalls w)) = Replies text ->
  query_command self command 1 w
  = (Returns text,
     after_call (after_failure self (EQuery h command) command 1 w)
       (EQuery h command)).
Proof.
  intros Hi H0 H1. unfold query_command.
  change (Z.to_nat (3 - 1)) with 2%nat.
  rewrite (query_command_rec_again _ _ h) by (done || lia).
  now rewrite (query_command_rec_done _ _ h _ _ _ text).
Qed.

Lemma query_command_third_try self h command w text :
  instrument self = Resource h ->
  oracle w (ncalls w) = Fails ->
  oracle w (S (ncalls w)) = Fails ->
  oracle w (S (S (ncalls w))) = Replies text ->
  query_command self command 1 w
  = (Returns text,
     after_call (after_failure self (EQuery h command) command 2
                   (after_failure self (EQuery h command) command 1 w))
       (EQuery h command)).
Proof.
  intros Hi H0 H1 H2. unfold query_command.
  change (Z.to_nat (3 - 1)) with 2%nat.
  rewrite (query_command_rec_again _ _ h) by (done || lia).
  rewrite (query_command_rec_again _ _ h) by (done || lia).
  now rewrite (query_command_rec_done _ _ h _ _ _ text).
Qed.

Lemma query_command_three_failures self h command w :
  instrument self = Resource h ->
  oracle w (ncalls w) = Fails ->
  oracle w (S (ncalls w)) = Fails ->
  oracle w (S (S (ncalls w))) = Fails ->
  query_command self command 1 w
  = (Returns "VisaIOError",
     after_giving_up self (EQuery h command) command w).
Proof.
  intros Hi H0 H1 H2. unfold query_command.
  change (Z.to_nat (3 - 1)) with 2%nat.
  rewrite (query_command_rec_again _ _ h) by (done || lia).
  rewrite (query_command_rec_again _ _ h) by (done || lia).
  now rewrite (query_command_rec_gives_up _ _ h) by (done || lia).
Qed.

Lemma write_command_first_try self h command w text :
  instrument self = Resource h ->
  oracle w (ncalls w) = Replies text ->
  write_command self command 1 w
  = (Returns PyNone, after_call w (EWrite h command)).
Proof. intros Hi Ho. now apply (write_command_rec_done _ _ _ _ _ _ text). Qed.

Lemma write_command_second_try self h command w text :
  instrument self = Resource h ->
  oracle w (ncalls w) = Fails ->
  oracle w (S (ncalls w)) = Replies text ->
  write_command self command 1 w
  = (Returns PyNone,
     after_call (after_failure self (EWrite h command) command 1 w)
       (EWrite h command)).
Proof.
  intros Hi H0 H1. unfold write_command.
  change (Z.to_nat (3 - 1)) with 2%nat.
  rewrite (write_command_rec_again _ _ h) by (done || lia).
  unfold bind at 1.
  now rewrite (write_command_rec_done _ _ h _ _ _ text).
Qed.

Lemma write_command_third_try self h command w text :
  instrument self = Resource h ->
  oracle w (ncalls w) = Fails ->
  oracle w (S (ncalls w)) = Fails ->
  oracle w (S (S (ncalls w))) = Replies text ->
  write_command self command 1 w
  = (Returns PyNone,
     after_call (after_failure self (EWrite h command) command 2
                   (after_failure self (EWrite h command) command 1 w))
       (EWrite h command)).
Proof.
  intros Hi H0 H1 H2. unfold write_command.
  change (Z.to_nat (3 - 1)) with 2%nat.
  rewrite (write_command_rec_again _ _ h) by (done || lia).
  unfold bind at 1.
  rewrite (write_command_rec_again _ _ h) by (done || lia).
  unfold bind at 1.
  now rewrite (write_command_rec_done _ _ h _ _ _ text).
Qed.

(** After three failures the innermost call returns ['VisaIOError'], but
    the two enclosing calls drop the value of their recursive call and
    fall off the end of the method: the outer call returns [None]. *)
Lemma write_command_three_failures self h command w :
  instrument self = Resource h ->
  oracle w (ncalls w) = Fails ->
  oracle w (S (ncalls w)) = Fails ->
  oracle w (S (S (ncalls w))) = Fails ->
  write_command self command 1 w
  = (Returns PyNone, after_giving_up self (EWrite h command) command w).
Proof.
  intros Hi H0 H1 H2. unfold write_command.
  change (Z.to_nat (3 - 1)) with 2%nat.
  rewrite (write_command_rec_again _ _ h) by (done || lia).
  unfold bind at 1.
  rewrite (write_command_rec_again _ _ h) by (done || lia).
  unfold bind at 1.
  now rewrite (write_command_rec_gives_up _ _ h) by (done || lia).
Qed.

(** Whatever the transport does, [write_command(command)] returns [None]. *)
Lemma write_command_closed self h command w :
  instrument self = Resource h ->
  write_command self command 1 w
  = (Returns PyNone, after_write_command self h command w).
Proof.
  intros Hi. unfold after_write_command.
  destruct (oracle w (ncalls w)) eqn:H0;
    [|now apply (write_command_first_try _ _ _ _ text)].
  destruct (oracle w (S (ncalls w))) eqn:H1;
    [|now apply (write_command_second_try _ _ _ _ text)].
  destruct (oracle w (S (S (ncalls w)))) eqn:H2;
    [|now apply (write_command_third_try _ _ _ _ text)].
  now apply write_command_three_failures.
Qed.

Lemma query_command_closed self h command w :
  instrument self = Resource h ->
  query_command self command 1 w
  = (Returns (fst (query_command_outcome self h command w)),
     snd (query_command_outcome self h command w)).
Proof.
  intros Hi. unfold query_command_outcome.
  destruct (oracle w (ncalls w)) eqn:H0;
    [|now apply query_command_first_try].
  destruct (oracle w (S (ncalls w))) eqn:H1;
    [|now apply query_command_second_try].
  destruct (oracle w (S (S (ncalls w)))) eqn:H2;
    [|now apply query_command_third_try].
  now apply query_command_three_failures.
Qed.

(** A write makes between one and three transport calls, the first event it
    records is the write itself, and every transport call it makes is that
    same write. *)
Lemma after_write_command_calls self h command w :
  oracle (after_write_command self h command w) = oracle w
  /\ (ncalls w < ncalls (after_write_command self h command w)
              <= ncalls w + 3)%nat
  /\ exists l,
       trace (after_write_command self h command w)
       = (trace w ++ EWrite h command :: l)%list
       /\ Forall (fun e => is_transport_call e = true ->
                           e = EWrite h command) l.
Proof.
  unfold after_write_command, after_giving_up, after_failure.
  destruct (oracle w (ncalls w)); [|simpl; repeat split; try lia;
    exists []; split; [reflexivity|constructor]].
  destruct (oracle w (S (ncalls w)));
    [|simpl; repeat split; try lia; eexists; rewrite <- !List.app_assoc; simpl;
      split; [reflexivity|repeat constructor; simpl; congruence]].
  destruct (oracle w (S (S (ncalls w))));
    simpl; repeat split; try lia; eexists; rewrite <- !List.app_assoc; simpl;
    (split; [reflexivity|repeat constructor; simpl; congruence]).
Qed.

Lemma query_command_outcome_calls self h command w :
  oracle (snd (query_command_outcome self h command w)) = oracle w
  /\ (ncalls w < ncalls (snd (query_command_outcome self h command w))
              <= ncalls w + 3)%nat
  /\ exists l,
       trace (snd (query_command_outcome self h command w))
       = (trace w ++ EQuery h command :: l)%list
       /\ Forall (fun e => is_transport_call e = true ->
                           e = EQuery h command) l.
Proof.
  unfold query_command_outcome, after_giving_up, after_failure.
  destruct (oracle w (ncalls w)); [|simpl; repeat split; try lia;
    exists []; split; [reflexivity|constructor]].
  destruct (oracle w (S (ncalls w)));
    [|simpl; repeat split; try lia; eexists; rewrite <- !List.app_assoc; simpl;
      split; [reflexivity|repeat constructor; simpl; congruence]].
  destruct (oracle w (S (S (ncalls w))));
    simpl; repeat split; try lia; eexists; rewrite <- !List.app_assoc; simpl;
    (split; [reflexivity|repeat constructor; simpl; congruence]).
Qed.

End Retry.

(** ** The command pipeline: [send_command] *)

Lemma append_assoc (a b c : string) : (a +:+ b) +:+ c = a +:+ b +:+ c.
Proof.
  induction a as [|x a IH]; [reflexivity|].
  change (String x ((a +:+ b) +:+ c) = String x (a +:+ b +:+ c)).
  now f_equal.
Qed.

Lemma wait_opcode : COMMANDS !! "wait for motion stop" = Some "WS".
Proof. reflexivity. Qed.

Lemma read_error_code_opcode : COMMANDS !! "read error code" = Some "TE?".
Proof. reflexivity. Qed.

Lemma move_opcode : COMMANDS !! "move to absolute position" = Some "PA".
Proof. reflexivity. Qed.

Section Pipeline.

Context {num : Type} `{PyNumber num}.
Implicit Types (self : Motor num) (w : world) (command : string).
Implicit Types (parameter : pyarg num).

(** The wire string of a command that has an opcode. *)
Lemma full_command_of_known self command parameter opcode w :
  COMMANDS !! command = Some opcode ->
  full_command_of self command parameter w
  = (Returns (wire_string (str_int (axis self)) opcode
                (format_arg parameter) "WS" (str_contains "move" command)),
     w).
Proof.
  intros Hop. unfold full_command_of, dict_get, bind at 1. rewrite Hop.
  unfold ret at 1, wire_string.
  destruct (str_contains "move" command).
  - rewrite wait_opcode. unfold bind, ret.
    now rewrite !append_assoc.
  - reflexivity.
Qed.

Lemma full_command_of_unknown self command parameter w :
  COMMANDS !! command = None ->
  full_command_of self command parameter w = (Raises (KeyError command), w).
Proof.
  intros Hop. unfold full_command_of, dict_get, bind at 1. now rewrite Hop.
Qed.

Lemma send_command_testflight self command parameter w :
  testflight self = true ->
  send_command self command parameter w = (Returns true, w).
Proof. intros Ht. unfold send_command. now rewrite Ht. Qed.

(** In real mode an operation without an opcode raises KeyError right
    after the sleep, before the transport is touched. *)
Lemma send_command_unknown self command parameter w :
  testflight self = false ->
  COMMANDS !! command = None ->
  send_command self command parameter w
  = (Raises (KeyError command), after w (ESleep 1)).
Proof.
  intros Ht Hop. unfold send_command. rewrite Ht.
  unfold bind at 1. unfold sleep, emit. unfold bind at 1.
  now rewrite full_command_of_unknown.
Qed.

(** In real mode, with an opcode: sleep, write with retries, query the
    error code with retries, then decode what the query gave. *)
Lemma send_command_real self h command parameter opcode w :
  testflight self = false ->
  instrument self = Resource h ->
  COMMANDS !! command = Some opcode ->
  let full_command :=
    wire_string (str_int (axis self)) opcode (format_arg parameter) "WS"
      (str_contains "move" command) in
  let q := query_command_outcome self h "TE?"
             (after_write_command self h full_command
                (after w (ESleep 1))) in
  send_command self command parameter w
  = check_error_code self full_command (fst q) (snd q).
Proof.
  intros Ht Hi Hop full_command q. unfold send_command. rewrite Ht.
  unfold bind at 1. unfold sleep, emit. unfold bind at 1.
  rewrite (full_command_of_known _ _ _ opcode) by done.
  fold full_command. unfold bind at 1.
  rewrite (write_command_closed _ h) by done.
  unfold bind at 1. unfold dict_get. rewrite read_error_code_opcode.
  unfold ret at 1. unfold bind at 1.
  now rewrite (query_command_closed _ h) by done.
Qed.

(** Decoding touches neither the transport nor its oracle; it adds at most
    one log line. *)
Lemma check_error_code_world self full_command err w :
  exists r l,
    check_error_code self full_command err w
    = (r, {| oracle := oracle w; ncalls := ncalls w;
             trace := trace w ++ l |})
    /\ Forall (fun e => is_log e = true) l.
Proof.
  assert (Hw : forall l, l = [] ->
            w = {| oracle := oracle w; ncalls := ncalls w;
                   trace := trace w ++ l |}).
  { intros l ->. rewrite app_nil_r. now destruct w. }
  unfold check_error_code, bind at 1, lift_result.
  destruct (strip_axis_number (axis self) err) as [code|e].
  - destruct (negb (String.eqb code "0")).
    + unfold bind, logprint, emit, ret, after.
      destruct (ERROR_CODES !! code); eexists _, [_]; split;
        try reflexivity; repeat constructor.
    + exists (Returns true), []. split; [|constructor].
      unfold ret. f_equal. now apply Hw.
  - exists (Raises e), []. split; [|constructor]. f_equal. now apply Hw.
Qed.

(** The first thing a real [send_command] does after its sleep is to write
    the wire string. *)
Lemma send_command_real_trace self h command parameter opcode w :
  testflight self = false ->
  instrument self = Resource h ->
  COMMANDS !! command = Some opcode ->
  exists l,
    trace (snd (send_command self command parameter w))
    = (trace w ++
       ESleep 1
       :: EWrite h (wire_string (str_int (axis self)) opcode
                      (format_arg parameter) "WS"
                      (str_contains "move" command))
       :: l)%list.
Proof.
  intros Ht Hi Hop.
  rewrite (send_command_real _ h _ _ opcode) by done. cbv zeta.
  set (full := wire_string _ _ _ _ _).
  set (w1 := after_write_command self h full (after w (ESleep 1))).
  destruct (after_write_command_calls self h full (after w (ESleep 1)))
    as (_ & _ & l1 & Hl1 & _). fold w1 in Hl1.
  destruct (query_command_outcome_calls self h "TE?" w1)
    as (_ & _ & l2 & Hl2 & _).
  destruct (check_error_code_world self full
              (fst (query_command_outcome self h "TE?" w1))
              (snd (query_command_outcome self h "TE?" w1)))
    as (r & l3 & -> & _).
  simpl. rewrite Hl2, Hl1. simpl.
  rewrite <- !List.app_assoc. simpl. eexists. reflexivity.
Qed.

End Pipeline.

(** ** The command codec *)

Lemma COMMANDS_keys (command opcode : string) :
  COMMANDS !! command = Some opcode ->
  (command, opcode) ∈
    [("define home", "DH"); ("move to absolute position", "PA");
     ("move to relative position", "PR"); ("read error code", "TE?");
     ("search for home", "OR"); ("set home search mode", "OM");
     ("set velocity", "VA"); ("wait for motion stop", "WS")].
Proof. intros Hop. now apply elem_of_list_to_map_2 in Hop. Qed.

(** Among the operations of the table, the motion commands (those whose
    name contains ["move"]) are the two moves. *)
Lemma motion_commands (command opcode : string) :
  COMMANDS !! command = Some opcode ->
  str_contains "move" command = true
  <-> command = "move to absolute position"
      \/ command = "move to relative position".
Proof.
  intros Hop. apply COMMANDS_keys in Hop.
  repeat (apply elem_of_cons in Hop as [Hop|Hop];
          [injection Hop as -> ->; vm_compute; split;
           (discriminate || tauto || intros [|]; discriminate)|]).
  now apply elem_of_nil in Hop.
Qed.

Section Codec.

Context {num : Type} `{PyNumber num}.
Implicit Types (self : Motor num) (w : world) (command : string).
Implicit Types (parameter : pyarg num).

(** C7.  For every operation name that has an opcode, the command codec
    (lines 164-167 of [send_command]) produces the wire string
    ["{axisId}{opcode}{parameter};{axisId}{waitOpcode}0"] when the name is
    that of a motion command (it contains ["move"]) and
    ["{axisId}{opcode}{parameter}"] otherwise, where [waitOpcode] is the
    opcode of "wait for motion stop"; in real mode this string is what
    [send_command] writes to the transport first. *)
Theorem command_codec_wire_string self command parameter opcode w :
  COMMANDS !! command = Some opcode ->
  exists waitOpcode,
    COMMANDS !! "wait for motion stop" = Some waitOpcode
    /\ full_command_of self command parameter w
       = (Returns (wire_string (str_int (axis self)) opcode
                     (format_arg parameter) waitOpcode
                     (str_contains "move" command)), w)
    /\ forall h,
         testflight self = false ->
         instrument self = Resource h ->
         exists l,
           trace (snd (send_command self command parameter w))
           = (trace w ++
              ESleep 1
              :: EWrite h (wire_string (str_int (axis self)) opcode
                             (format_arg parameter) waitOpcode
                             (str_contains "move" command))
              :: l)%list.
Proof.
  intros Hop. exists "WS". split; [exact wait_opcode|]. split.
  - now apply full_command_of_known.
  - intros h Ht Hi. now apply send_command_real_trace.
Qed.

(** C9 (as amended).  For an operation name that is not in the opcode
    table: in real mode [send_command] raises KeyError after its sleep and
    before any transport call, and the exception leaves the call; in
    testflight mode the table is not consulted and the call returns
    [True]. *)
Theorem unknown_operation_raises self command parameter w :
  COMMANDS !! command = None ->
  (testflight self = false ->
   send_command self command parameter w
   = (Raises (KeyError command), after w (ESleep 1))
   /\ transport_calls (after w (ESleep 1)) = transport_calls w)
  /\ (testflight self = true ->
      send_command self command parameter w = (Returns true, w)).
Proof.
  intros Hop. split.
  - intros Ht. split; [now apply send_command_unknown|].
    unfold transport_calls, after. simpl.
    rewrite List.filter_app. simpl. now rewrite app_nil_r.
  - intros Ht. now apply send_command_testflight.
Qed.

End Codec.

(** ** The error decoder *)

Lemma tail_differs (c : ascii) (rest : string) : rest <> String c rest.
Proof.
  intros Heq. apply (f_equal String.length) in Heq. simpl in Heq. lia.
Qed.

Lemma strip_axis_number_empty (axis_number : Z) :
  strip_axis_number axis_number EmptyString = Raises IndexError.
Proof. reflexivity. Qed.

(** C3 (as amended).  For every non-empty raw response and axis number, the
    decoder drops the leading character exactly when that character equals
    [str(axis)] and the response has more than two characters; otherwise
    the response is left as it is. *)
Theorem strip_axis_number_exactly (axis_number : Z) (c : ascii)
    (rest : string) :
  exists out,
    strip_axis_number axis_number (String c rest) = Returns out
    /\ (out = rest
        <-> String c EmptyString = str_int axis_number
            /\ (2 < String.length (String c rest))%nat)
    /\ (out = String c rest
        <-> ~ (String c EmptyString = str_int axis_number
               /\ (2 < String.length (String c rest))%nat)).
Proof.
  unfold strip_axis_number.
  destruct (String.eqb (String c EmptyString) (str_int axis_number))
    eqn:Heq.
  - apply String.eqb_eq in Heq.
    destruct (2 <? Z.of_nat (String.length (String c rest)))%Z eqn:Hlen.
    + apply Z.ltb_lt in Hlen. exists rest. simpl andb. cbv iota.
      split; [reflexivity|]. split.
      * split; [intros _; split; [exact Heq|lia]|reflexivity].
      * split; [intros Hr; now apply tail_differs in Hr|].
        intros Hn. exfalso. apply Hn. split; [exact Heq|lia].
    + apply Z.ltb_ge in Hlen. exists (String c rest). simpl andb. cbv iota.
      split; [reflexivity|]. split.
      * split; [intros Hr; symmetry in Hr; now apply tail_differs in Hr|].
        intros [_ Hl]. lia.
      * split; [intros _ [_ Hl]; lia|reflexivity].
  - apply String.eqb_neq in Heq. exists (String c rest). simpl andb.
    cbv iota. split; [reflexivity|]. split.
    + split; [intros Hr; symmetry in Hr; now apply tail_differs in Hr|].
      intros [He _]. contradiction.
    + split; [intros _ [He _]; contradiction|reflexivity].
Qed.

(** A response that is the axis number alone is not stripped. *)
Lemma axis_number_alone_not_stripped (axis_number : Z) (c : ascii) :
  strip_axis_number axis_number (String c EmptyString)
  = Returns (String c EmptyString).
Proof.
  unfold strip_axis_number. simpl String.length.
  now rewrite andb_false_r.
Qed.

(** Neither is a response of two characters. *)
Lemma two_characters_not_stripped (axis_number : Z) (c d : ascii) :
  strip_axis_number axis_number (String c (String d EmptyString))
  = Returns (String c (String d EmptyString)).
Proof.
  unfold strip_axis_number. simpl String.length.
  now rewrite andb_false_r.
Qed.

(** C3, counterexample.  On axis 1 the response ["13"] begins with the axis
    number and has more than one character, yet the decoder does not drop
    the leading character: it goes on with ["13"], not with ["3"]. *)
Lemma two_character_response_kept :
  String "1" EmptyString = str_int 1
  /\ (1 < String.length "13")%nat
  /\ strip_axis_number 1 "13" = Returns "13"
  /\ strip_axis_number 1 "13" <> Returns "3".
Proof.
  split; [reflexivity|]. split; [simpl; lia|]. split; [reflexivity|].
  discriminate.
Qed.

(** ** Transport failures in [send_command] *)

Lemma str_int_not_V (axis_number : Z) :
  String "V" EmptyString <> str_int axis_number.
Proof.
  unfold str_int. destruct (Z.to_int axis_number) as [u|u];
    destruct u; discriminate.
Qed.

Lemma VisaIOError_not_stripped (axis_number : Z) :
  strip_axis_number axis_number "VisaIOError" = Returns "VisaIOError".
Proof.
  unfold strip_axis_number.
  pose proof (str_int_not_V axis_number) as Hne.
  apply String.eqb_neq in Hne. now rewrite Hne.
Qed.

Lemma zero_not_stripped (axis_number : Z) :
  strip_axis_number axis_number "0" = Returns "0".
Proof. apply axis_number_alone_not_stripped. Qed.

Section Failures.

Context {num : Type} `{PyNumber num}.
Implicit Types (self : Motor num) (w : world) (command : string).
Implicit Types (parameter : pyarg num).

(** C10.  In real mode, when the read-error-code query fails on all three
    attempts, [query_command] evaluates to the string ['VisaIOError'];
    [send_command] treats it as an error code: it is not stripped, it is
    not ["0"] and it is not in [ERROR_CODES], so the call logs the generic
    "Error code ... on device ..." line and returns [False]. *)
Theorem failed_error_query_is_generic_error self h command parameter
    opcode w :
  testflight self = false ->
  instrument self = Resource h ->
  COMMANDS !! command = Some opcode ->
  let full_command :=
    wire_string (str_int (axis self)) opcode (format_arg parameter) "WS"
      (str_contains "move" command) in
  let w1 := after_write_command self h full_command (after w (ESleep 1)) in
  let w2 := after_giving_up self (EQuery h "TE?") "TE?" w1 in
  oracle w (ncalls w1) = Fails ->
  oracle w (S (ncalls w1)) = Fails ->
  oracle w (S (S (ncalls w1))) = Fails ->
  write_command self full_command 1 (after w (ESleep 1))
  = (Returns PyNone, w1)
  /\ query_command self "TE?" 1 w1 = (Returns "VisaIOError", w2)
  /\ strip_axis_number (axis self) "VisaIOError" = Returns "VisaIOError"
  /\ "VisaIOError" <> "0"
  /\ ERROR_CODES !! "VisaIOError" = None
  /\ send_command self command parameter w
     = (Returns false,
        after w2 (ELog ("Error code VisaIOError on device " +:+
                        name self +:+ ".") (Some "red"))).
Proof.
  intros Ht Hi Hop full_command w1 w2 H0 H1 H2.
  destruct (after_write_command_calls self h full_command
              (after w (ESleep 1))) as (Hor & _). fold w1 in Hor.
  simpl in Hor.
  assert (Hq : query_command_outcome self h "TE?" w1
               = ("VisaIOError", w2)).
  { unfold query_command_outcome. now rewrite !Hor, H0, H1, H2. }
  split; [now apply write_command_closed|].
  split; [apply query_command_three_failures; now rewrite ?Hor|].
  split; [apply VisaIOError_not_stripped|].
  split; [discriminate|]. split; [reflexivity|].
  rewrite (send_command_real _ h _ _ opcode) by done. cbv zeta.
  fold full_command. fold w1. rewrite Hq. simpl fst. simpl snd.
  unfold check_error_code, bind at 1, lift_result.
  now rewrite VisaIOError_not_stripped.
Qed.

(** When the three attempts to write the command fail and the controller
    then answers the error query with ["0"], [send_command] returns
    [True]: nothing of the failed write reaches its result. *)
Lemma send_command_ignores_failed_write self h command parameter opcode w :
  testflight self = false ->
  instrument self = Resource h ->
  COMMANDS !! command = Some opcode ->
  oracle w (ncalls w) = Fails ->
  oracle w (S (ncalls w)) = Fails ->
  oracle w (S (S (ncalls w))) = Fails ->
  oracle w (S (S (S (ncalls w)))) = Replies "0" ->
  fst (send_command self command parameter w) = Returns true.
Proof.
  intros Ht Hi Hop H0 H1 H2 H3.
  rewrite (send_command_real _ h _ _ opcode) by done. cbv zeta.
  unfold after_write_command. simpl oracle. simpl ncalls.
  rewrite H0, H1, H2.
  unfold query_command_outcome. simpl oracle. simpl ncalls. rewrite H3.
  simpl fst. simpl snd.
  unfold check_error_code, bind at 1, lift_result.
  now rewrite zero_not_stripped.
Qed.

End Failures.

(** ** The claims on concrete calls *)

(** On axis 1, ["move to absolute position"] with parameter [10]. *)
Lemma command_codec_wire_string_witness :
  COMMANDS !! "move to absolute position" = Some "PA"
  /\ full_command_of Bench.real_motor "move to absolute position"
       (ArgNum (Whole.Int 10)) (fresh Bench.healthy)
     = (Returns "1PA10;1WS0", fresh Bench.healthy).
Proof.
  split; [reflexivity|].
  destruct (command_codec_wire_string Bench.real_motor
              "move to absolute position" (ArgNum (Whole.Int 10)) "PA"
              (fresh Bench.healthy) eq_refl)
    as (waitOpcode & Hwait & Hfull & _).
  rewrite Hfull. rewrite wait_opcode in Hwait.
  injection Hwait as <-. reflexivity.
Defined.

Lemma unknown_operation_raises_witness :
  COMMANDS !! "fly" = None
  /\ fst (send_command Bench.real_motor "fly" (ArgStr EmptyString)
            (fresh Bench.healthy))
     = Raises (KeyError "fly").
Proof.
  split; [reflexivity|].
  destruct (unknown_operation_raises Bench.real_motor "fly"
              (ArgStr EmptyString) (fresh Bench.healthy) eq_refl)
    as [Hreal _].
  destruct (Hreal eq_refl) as [Hsend _]. now rewrite Hsend.
Defined.

(** C9, counterexample.  ["fly"] has no opcode; in real mode the call does
    not end in a failure it reports: KeyError is raised out of
    [send_command]; in testflight mode nothing is detected and the call
    returns [True]. *)
Lemma unknown_operation_leaves_the_call :
  COMMANDS !! "fly" = None
  /\ fst (send_command Bench.real_motor "fly" (ArgStr EmptyString)
            (fresh Bench.healthy))
     = Raises (KeyError "fly")
  /\ fst (send_command Bench.simulated_motor "fly" (ArgStr EmptyString)
            (fresh Bench.healthy))
     = Returns true.
Proof. repeat split. Qed.

(** The write of ["1VA4"] succeeds, the three attempts of the error query
    fail. *)
Lemma failed_error_query_is_generic_error_witness :
  let w := fresh (script [Replies EmptyString; Fails; Fails; Fails]
                    (Replies "0")) in
  let run := send_command Bench.real_motor "set velocity"
               (ArgNum (Whole.Int 4)) w in
  oracle w 1%nat = Fails /\ oracle w 2%nat = Fails /\ oracle w 3%nat = Fails
  /\ fst run = Returns false
  /\ last (trace (snd run))
     = Some (ELog "Error code VisaIOError on device linear polarizer."
               (Some "red")).
Proof.
  intros w run. repeat (split; [reflexivity|]).
  destruct (failed_error_query_is_generic_error Bench.real_motor 0%nat
              "set velocity" (ArgNum (Whole.Int 4)) "VA" w
              eq_refl eq_refl eq_refl eq_refl eq_refl eq_refl)
    as (_ & _ & _ & _ & _ & Hsend).
  unfold run. rewrite Hsend. split; reflexivity.
Defined.

(** C2, at the failing input.  The three attempts to write ["1DH0"] fail;
    the error query that follows is answered ["0"]; [send_command] returns
    [True], although the command never went out. *)
Theorem failed_write_reported_as_success :
  let run := send_command Bench.real_motor "define home"
               (ArgNum (Whole.Int 0)) (fresh Bench.three_failures) in
  fst run = Returns true
  /\ transport_calls (snd run)
     = [EWrite 0 "1DH0"; EWrite 0 "1DH0"; EWrite 0 "1DH0"; EQuery 0 "TE?"].
Proof.
  intros run. split.
  - now apply (send_command_ignores_failed_write _ 0%nat _ _ "DH").
  - reflexivity.
Qed.

(** C5, at the failing input.  On a transport that fails three times
    [write_command] makes three attempts and no fourth, and then returns
    [None], the value it also returns when the write succeeds; on the same
    transport [query_command] does return ['VisaIOError']. *)
Theorem write_command_loses_its_failure :
  let failed := write_command Bench.real_motor "1VA4" 1
                  (fresh Bench.three_failures) in
  let succeeded := write_command Bench.real_motor "1VA4" 1
                     (fresh Bench.healthy) in
  fst failed = Returns PyNone
  /\ transport_calls (snd failed)
     = [EWrite 0 "1VA4"; EWrite 0 "1VA4"; EWrite 0 "1VA4"]
  /\ fst succeeded = Returns PyNone
  /\ fst (query_command Bench.real_motor "TE?" 1
            (fresh Bench.three_failures))
     = Returns "VisaIOError".
Proof.
  intros failed succeeded. unfold failed, succeeded.
  rewrite !(write_command_closed _ 0%nat) by reflexivity.
  rewrite (query_command_closed _ 0%nat) by reflexivity.
  repeat split.
Qed.

(** ** Methods only append to the trace *)

Lemma grows_ret {A} (a : A) : grows (ret a).
Proof. intros w. exists []. simpl. now rewrite app_nil_r. Qed.

Lemma grows_raise {A} (e : exn) : grows (@raise A e).
Proof. intros w. exists []. simpl. now rewrite app_nil_r. Qed.

Lemma grows_lift_result {A} (r : result A) : grows (lift_result r).
Proof. intros w. exists []. simpl. now rewrite app_nil_r. Qed.

Lemma grows_emit (e : event) : grows (emit e).
Proof. intros w. now exists [e]. Qed.

Lemma grows_transport (e : event) : grows (transport e).
Proof.
  intros w. exists [e]. unfold transport.
  now destruct (oracle w (ncalls w)).
Qed.

Lemma grows_bind {A B} (m : M A) (k : A -> M B) :
  grows m -> (forall a, grows (k a)) -> grows (bind m k).
Proof.
  intros Hm Hk w. unfold bind. destruct (Hm w) as [l Hl].
  destruct (m w) as [[a|e] w1]; simpl in Hl.
  - destruct (Hk a w1) as [l' Hl']. exists (l ++ l')%list.
    now rewrite Hl', Hl, List.app_assoc.
  - now exists l.
Qed.

Lemma grows_except {A} (body handler : M A) :
  grows body -> grows handler -> grows (except_VisaIOError body handler).
Proof.
  intros Hb Hh w. unfold except_VisaIOError. destruct (Hb w) as [l Hl].
  destruct (body w) as [[a|e] w1]; simpl in Hl; [now exists l|].
  destruct e; try now exists l.
  destruct (Hh w1) as [l' Hl']. exists (l ++ l')%list.
  now rewrite Hl', Hl, List.app_assoc.
Qed.

Ltac grows_step :=
  first
    [ apply grows_ret | apply grows_raise | apply grows_lift_result
    | apply grows_emit | apply grows_transport
    | apply grows_bind; [|intros ?]
    | apply grows_except
    | assumption
    | match goal with
      | |- grows (if ?b then _ else _) => destruct b
      | |- grows (match ?x with _ => _ end) => destruct x
      end ].

Ltac grows := repeat grows_step.

Section Grows.

Context {num : Type} `{PyNumber num}.
Implicit Types (self : Motor num) (w : world) (command : string).

Lemma grows_write_command_rec fuel self command attempt :
  grows (write_command_rec fuel self command attempt).
Proof.
  revert attempt. induction fuel as [|fuel IH]; intros attempt; simpl;
    unfold instrument_write, logprint; grows. apply IH.
Qed.

Lemma grows_query_command_rec fuel self command attempt :
  grows (query_command_rec fuel self command attempt).
Proof.
  revert attempt. induction fuel as [|fuel IH]; intros attempt; simpl;
    unfold instrument_query, logprint; grows. apply IH.
Qed.

Lemma grows_send_command self command (parameter : pyarg num) :
  grows (send_command self command parameter).
Proof.
  unfold send_command, sleep, full_command_of, dict_get, check_error_code,
    logprint, write_command, query_command.
  repeat first [ apply grows_write_command_rec
               | apply grows_query_command_rec
               | grows_step ].
Qed.

Lemma grows_get_current_position self : grows (get_current_position self).
Proof. unfold get_current_position, instrument_query. grows. Qed.

Lemma grows_move self degrees mode verbose :
  grows (move self degrees mode verbose).
Proof.
  unfold move, new_position_of, logprint.
  repeat first [ apply grows_get_current_position
               | apply grows_send_command
               | grows_step ].
Qed.

End Grows.

(** ** Moves *)

Lemma transport_calls_after_log w message colour :
  transport_calls (after w (ELog message colour)) = transport_calls w.
Proof.
  unfold transport_calls, after. simpl. rewrite List.filter_app. simpl.
  now rewrite app_nil_r.
Qed.

Section Moves.

Context {num : Type} `{PyNumber num}.
Implicit Types (self : Motor num) (w : world) (mode : string).
Implicit Types (degrees target p : num).

Lemma get_current_position_testflight self p w :
  testflight self = true ->
  current_position self = Some p ->
  get_current_position self w = (Returns p, w).
Proof. intros Ht Hp. unfold get_current_position. now rewrite Ht, Hp. Qed.

Lemma get_current_position_real self h w text p :
  testflight self = false ->
  instrument self = Resource h ->
  oracle w (ncalls w) = Replies text ->
  py_float (drop_last text) = Some p ->
  get_current_position self w
  = (Returns p, after_call w (EQuery h (str_int (axis self) +:+ "TP?"))).
Proof.
  intros Ht Hi Ho Hp. unfold get_current_position. rewrite Ht, Hi.
  unfold bind, instrument_query.
  rewrite (transport_replies _ _ _ Ho). now rewrite Hp.
Qed.

(** Where the target of a move comes from, and what it costs: nothing for
    an absolute move or a testflight motor, one position query for a
    relative move in real mode. *)
Lemma new_position_of_returns self degrees mode w target w1 :
  new_position_of self degrees mode w = (Returns target, w1) ->
  (w1 = w /\ (mode = "absolute" \/ testflight self = true))
  \/ (exists h,
        mode = "relative" /\ testflight self = false
        /\ instrument self = Resource h
        /\ w1 = after_call w (EQuery h (str_int (axis self) +:+ "TP?"))).
Proof.
  unfold new_position_of.
  destruct (String.eqb mode "absolute") eqn:Habs.
  - apply String.eqb_eq in Habs. unfold ret. intros Heq. inversion Heq; subst. left. tauto.
  - destruct (String.eqb mode "relative") eqn:Hrel; [|discriminate].
    apply String.eqb_eq in Hrel. unfold get_current_position.
    destruct (testflight self) eqn:Ht.
    + unfold bind. destruct (current_position self); [|discriminate].
      unfold ret. intros Heq. inversion Heq; subst. left. tauto.
    + unfold instrument_query. destruct (instrument self) as [|h] eqn:Hi;
        [discriminate|].
      unfold bind, transport.
      destruct (oracle w (ncalls w)); [discriminate|].
      destruct (py_float (drop_last text)); [|discriminate].
      unfold ret. intros Heq. inversion Heq; subst. right. exists h. tauto.
Qed.

(** A rejected move: one red log line, and [None]. *)
Lemma move_rejected self degrees mode verbose w target w1 :
  new_position_of self degrees mode w = (Returns target, w1) ->
  allowed self target = false ->
  move self degrees mode verbose w
  = (Returns PyNone,
     after w1 (ELog ("Desired position " +:+ py_format target +:+
                     " is out of operating bounds of axis " +:+
                     str_int (axis self) +:+ ".") (Some "red"))).
Proof.
  intros Hnew Hno. unfold move, bind at 1. rewrite Hnew, Hno. reflexivity.
Qed.

(** An accepted move: the optional narration, then [send_command]; its
    boolean is dropped. *)
Lemma move_accepted self degrees mode verbose w target w1 :
  new_position_of self degrees mode w = (Returns target, w1) ->
  allowed self target = true ->
  move self degrees mode verbose w
  = (send_command self "move to absolute position" (ArgNum target) ;;
     ret PyNone) (narrated self target verbose w1).
Proof.
  intros Hnew Hok. unfold move, bind at 1. rewrite Hnew, Hok.
  unfold bind at 1. unfold narrated. now destruct verbose.
Qed.

Lemma snd_bind_ret {A B} (m : M A) (b : B) w :
  snd ((m ;; ret b) w) = snd (m w).
Proof. unfold bind, ret. now destruct (m w) as [[a|e] w']. Qed.

(** [move] has no [return] statement: when it returns, it returns
    [None]. *)
Lemma move_returns_None self degrees mode verbose w v :
  fst (move self degrees mode verbose w) = Returns v -> v = PyNone.
Proof.
  destruct (new_position_of self degrees mode w) as [[target|e] w1]
    eqn:Hnew;
    [|unfold move, bind at 1; rewrite Hnew; discriminate].
  destruct (allowed self target) eqn:Hok.
  - rewrite (move_accepted _ _ _ _ _ _ _ Hnew Hok). unfold bind, ret.
    destruct (send_command self _ _ _) as [[b|e] w3]; simpl;
      [congruence|discriminate].
  - rewrite (move_rejected _ _ _ _ _ _ _ Hnew Hok). simpl. congruence.
Qed.

(** C4 (as amended).  When the computed target of a move lies outside the
    bounds, no command is written: the only transport call the move can
    have made is the position query of a relative move in real mode, by
    which the target was computed.  The move logs one red line and returns
    [None], as every move that returns does. *)
Theorem move_out_of_bounds_is_logged self degrees mode verbose w target w1 :
  new_position_of self degrees mode w = (Returns target, w1) ->
  allowed self target = false ->
  move self degrees mode verbose w
  = (Returns PyNone,
     after w1 (ELog ("Desired position " +:+ py_format target +:+
                     " is out of operating bounds of axis " +:+
                     str_int (axis self) +:+ ".") (Some "red")))
  /\ ((w1 = w /\ (mode = "absolute" \/ testflight self = true))
      \/ (exists h,
            mode = "relative" /\ testflight self = false
            /\ instrument self = Resource h
            /\ w1 = after_call w
                      (EQuery h (str_int (axis self) +:+ "TP?"))))
  /\ (forall degrees' mode' verbose' w' v,
        fst (move self degrees' mode' verbose' w') = Returns v ->
        v = PyNone).
Proof.
  intros Hnew Hno. split; [now apply move_rejected|].
  split; [now apply (new_position_of_returns _ degrees _ _ target)|].
  intros. now apply (move_returns_None self degrees' mode' verbose' w').
Qed.

(** C8.  An absolute move whose target equals the lower or the upper bound
    is accepted, and the move command is sent: [move] goes on to
    [send_command('move to absolute position', target)], which in real
    mode writes ["{axis}PA{target};{axis}WS0"].  The target equals the
    bound as numbers do ([==]: [180.0] is on the bound [180]); the bounds
    are ordered ([min <= max]), and [<=] is transitive, as it is on Python's
    numbers. *)
Theorem move_to_a_bound_is_sent self target verbose w :
  py_eq target (fst (bounds self)) = true
  \/ py_eq target (snd (bounds self)) = true ->
  py_le (fst (bounds self)) (snd (bounds self)) = true ->
  (forall x y z : num,
     py_le x y = true -> py_le y z = true -> py_le x z = true) ->
  allowed self target = true
  /\ move self target "absolute" verbose w
     = (send_command self "move to absolute position" (ArgNum target) ;;
        ret PyNone) (narrated self target verbose w)
  /\ forall h,
       testflight self = false ->
       instrument self = Resource h ->
       exists l,
         trace (snd (move self target "absolute" verbose w))
         = (trace (narrated self target verbose w) ++
            ESleep 1
            :: EWrite h (wire_string (str_int (axis self)) "PA"
                           (py_format target) "WS" true)
            :: l)%list.
Proof.
  intros Hon Hord Htrans.
  assert (Hok : allowed self target = true).
  { unfold allowed, py_eq in *. apply andb_true_iff.
    destruct Hon as [Hlo | Hhi].
    - apply andb_true_iff in Hlo as [Hle Hge]. split; [exact Hge|].
      exact (Htrans _ _ _ Hle Hord).
    - apply andb_true_iff in Hhi as [Hle Hge]. split; [|exact Hle].
      exact (Htrans _ _ _ Hord Hge). }
  assert (Hmove := move_accepted self target "absolute" verbose w target w
                     eq_refl Hok).
  split; [exact Hok|]. split; [exact Hmove|].
  intros h Ht Hi. rewrite Hmove, snd_bind_ret.
  exact (send_command_real_trace self h "move to absolute position"
           (ArgNum target) "PA" _ Ht Hi move_opcode).
Qed.

End Moves.

(** ** Testflight mode *)

Section Testflight.

Context {num : Type} `{PyNumber num}.
Implicit Types (self : Motor num) (w : world) (mode : string).

(** A move of a testflight motor returns [None] and reaches no
    transport. *)
Lemma move_testflight self degrees mode verbose w p :
  testflight self = true ->
  current_position self = Some p ->
  mode = "absolute" \/ mode = "relative" ->
  exists w',
    move self degrees mode verbose w = (Returns PyNone, w')
    /\ transport_calls w' = transport_calls w.
Proof.
  intros Ht Hp Hmode.
  assert (Hnew : exists target,
             new_position_of self degrees mode w = (Returns target, w)).
  { destruct Hmode as [-> | ->].
    - now exists degrees.
    - exists (py_add p degrees). unfold new_position_of.
      change (String.eqb "relative" "absolute") with false.
      change (String.eqb "relative" "relative") with true.
      cbv iota. unfold bind.
      now rewrite (get_current_position_testflight _ p). }
  destruct Hnew as [target Hnew].
  destruct (allowed self target) eqn:Hok.
  - rewrite (move_accepted _ _ _ _ _ _ _ Hnew Hok). unfold bind.
    rewrite send_command_testflight by done. eexists. split; [reflexivity|].
    unfold narrated. destruct verbose; [|reflexivity].
    apply transport_calls_after_log.
  - rewrite (move_rejected _ _ _ _ _ _ _ Hnew Hok). eexists.
    split; [reflexivity|]. apply transport_calls_after_log.
Qed.

Lemma moves_testflight self calls w p :
  testflight self = true ->
  current_position self = Some p ->
  Forall (fun call : num * string * bool =>
            call.1.2 = "absolute" \/ call.1.2 = "relative") calls ->
  exists w',
    moves self calls w = (Returns tt, w')
    /\ transport_calls w' = transport_calls w.
Proof.
  intros Ht Hp Hcalls. revert w.
  induction Hcalls as [|[[degrees mode] verbose] calls Hmode _ IH];
    intros w.
  - now exists w.
  - simpl in Hmode.
    destruct (move_testflight self degrees mode verbose w p Ht Hp Hmode)
      as (w1 & Hmove & Hcalls1).
    destruct (IH w1) as (w2 & Hrest & Hcalls2).
    exists w2. simpl. unfold bind. rewrite Hmove. split; [exact Hrest|].
    now rewrite Hcalls2.
Qed.

(** C1 (as amended).  In testflight mode no move changes the stored
    position: after [Motor(..., testflight=True)] and any sequence of
    relative or absolute moves, [get_current_position()] returns the [0.0]
    set by [__init__], and no transport call has been made. *)
Theorem simulated_position_never_changes (name : string)
    (instrument : device) (axis : Z) (bounds : num * num) (velocity : num)
    (calls : list (num * string * bool)) w :
  Forall (fun call : num * string * bool =>
            call.1.2 = "absolute" \/ call.1.2 = "relative") calls ->
  exists w',
    (m <- Motor_init name instrument axis bounds velocity true ;;
     moves m calls ;;
     get_current_position m) w
    = (Returns py_float0, w')
    /\ transport_calls w' = transport_calls w.
Proof.
  intros Hcalls. unfold Motor_init. unfold bind at 1. unfold ret at 1.
  set (m := {| name := name; current_position := Some py_float0 |}).
  destruct (moves_testflight m calls w py_float0 eq_refl eq_refl Hcalls)
    as (w' & Hmoves & Hsame).
  exists w'. unfold bind. rewrite Hmoves.
  now rewrite (get_current_position_testflight m py_float0).
Qed.

End Testflight.

(** ** class Polarizer *)

Section Composite.

Context {num : Type} `{PyNumber num}.
Implicit Types (self : Polarizer num) (w : world).

(** C6.  [set(degrees)] moves the linear polarizer, reads its position
    back, and moves the quarter-wave plate to that position plus 45, in
    this order: when the first move returns and the position [p] is read
    back, [set] ends as [move(p + 45, 'absolute')] of the quarter-wave
    axis, started in the world the read-back left; in real mode the
    read-back is the query ["{axis1}TP?"], and an accepted second move
    writes ["{axis2}PA{p + 45};{axis2}WS0"]. *)
Theorem set_targets_achieved_position_plus_45 self degrees verbose w r1 w1
    p w2 :
  move (lin_polarizer self) degrees "absolute" verbose w
  = (Returns r1, w1) ->
  get_current_position (lin_polarizer self) w1 = (Returns p, w2) ->
  set self degrees verbose w
  = move (quart_lambda self) (py_add p (py_int 45)) "absolute" verbose w2
  /\ (exists l1 l2 l3,
        trace w1 = (trace w ++ l1)%list
        /\ trace w2 = (trace w1 ++ l2)%list
        /\ trace (snd (set self degrees verbose w))
           = (trace w2 ++ l3)%list)
  /\ (forall h1,
        testflight (lin_polarizer self) = false ->
        instrument (lin_polarizer self) = Resource h1 ->
        w2 = after_call w1
               (EQuery h1 (str_int (axis (lin_polarizer self)) +:+ "TP?")))
  /\ (forall h2,
        testflight (quart_lambda self) = false ->
        instrument (quart_lambda self) = Resource h2 ->
        allowed (quart_lambda self) (py_add p (py_int 45)) = true ->
        exists l,
          trace (snd (set self degrees verbose w))
          = (trace (narrated (quart_lambda self) (py_add p (py_int 45))
                      verbose w2) ++
             ESleep 1
             :: EWrite h2
                  (wire_string (str_int (axis (quart_lambda self))) "PA"
                     (py_format (py_add p (py_int 45))) "WS" true)
             :: l)%list).
Proof.
  intros Hmove Hget.
  assert (Hset : set self degrees verbose w
                 = move (quart_lambda self) (py_add p (py_int 45))
                     "absolute" verbose w2).
  { unfold set, bind at 1. rewrite Hmove. unfold bind at 1.
    now rewrite Hget. }
  split; [exact Hset|]. split; [|split].
  - destruct (grows_move (lin_polarizer self) degrees "absolute" verbose w)
      as [l1 Hl1].
    destruct (grows_get_current_position (lin_polarizer self) w1)
      as [l2 Hl2].
    destruct (grows_move (quart_lambda self) (py_add p (py_int 45))
                "absolute" verbose w2) as [l3 Hl3].
    rewrite Hmove in Hl1. rewrite Hget in Hl2. rewrite Hset.
    now exists l1, l2, l3.
  - intros h1 Ht Hi. unfold get_current_position in Hget.
    rewrite Ht, Hi in Hget. unfold bind, instrument_query, transport in Hget.
    destruct (oracle w1 (ncalls w1)); [discriminate|].
    destruct (py_float (drop_last text)); [|discriminate].
    unfold ret in Hget. now inversion Hget.
  - intros h2 Ht Hi Hok. rewrite Hset.
    rewrite (move_accepted (quart_lambda self) (py_add p (py_int 45))
               "absolute" verbose w2 (py_add p (py_int 45)) w2
               eq_refl Hok), snd_bind_ret.
    exact (send_command_real_trace (quart_lambda self) h2
             "move to absolute position"
             (ArgNum (py_add p (py_int 45))) "PA" _ Ht Hi move_opcode).
Qed.

End Composite.

(** ** The claims about moves on concrete calls *)

Lemma simulated_position_never_changes_witness :
  let calls := [(Whole.Int 10, "relative", true);
                (Whole.Int 10, "relative", true)] in
  Forall (fun call : Whole.t * string * bool =>
            call.1.2 = "absolute" \/ call.1.2 = "relative") calls
  /\ fst ((m <- Motor_init "m" FakeInstrument 1 Bench.half_turn
                 (Whole.Int 4) true ;;
           moves m calls ;;
           get_current_position m) (fresh Bench.healthy))
     = Returns (Whole.Float 0).
Proof.
  intros calls.
  assert (Hcalls : Forall (fun call : Whole.t * string * bool =>
                             call.1.2 = "absolute"
                             \/ call.1.2 = "relative") calls)
    by (repeat constructor; right; reflexivity).
  split; [exact Hcalls|].
  destruct (simulated_position_never_changes "m" FakeInstrument 1
              Bench.half_turn (Whole.Int 4) calls (fresh Bench.healthy)
              Hcalls) as (w' & Hrun & _).
  now rewrite Hrun.
Defined.

(** C1, counterexample.  A testflight motor starts at [0.0]; after
    [move(10, 'relative')] twice, [get_current_position()] returns [0.0],
    not [20.0]. *)
Lemma two_relative_moves_stay_at_zero :
  fst (Bench.two_relative_moves (fresh Bench.healthy))
  = Returns (Whole.Float 0)
  /\ fst (Bench.two_relative_moves (fresh Bench.healthy))
     <> Returns (Whole.Float 20).
Proof. split; [reflexivity|]. intros Heq. vm_compute in Heq. discriminate. Qed.

Lemma move_out_of_bounds_is_logged_witness :
  let w := fresh Bench.healthy in
  new_position_of Bench.real_motor (Whole.Int 200) "absolute" w
  = (Returns (Whole.Int 200), w)
  /\ allowed Bench.real_motor (Whole.Int 200) = false
  /\ fst (move Bench.real_motor (Whole.Int 200) "absolute" true w)
     = Returns PyNone
  /\ trace (snd (move Bench.real_motor (Whole.Int 200) "absolute" true w))
     = [ELog "Desired position 200 is out of operating bounds of axis 1."
          (Some "red")].
Proof.
  intros w.
  assert (Hout : allowed Bench.real_motor (Whole.Int 200) = false)
    by reflexivity.
  split; [reflexivity|]. split; [exact Hout|].
  destruct (move_out_of_bounds_is_logged Bench.real_motor (Whole.Int 200)
              "absolute" true w (Whole.Int 200) w eq_refl Hout)
    as (Hmove & _).
  rewrite Hmove. split; reflexivity.
Defined.

(** C4, counterexample.  With bounds [[-180, 180]] and axis 1 at 170.0, the
    relative move by 20 has the target 190.0, outside the bounds, and yet a
    transport call has occurred: the position query.  And the rejected
    absolute move to 200 returns what the accepted absolute move to 10
    returns, [None]: the caller cannot tell them apart by the result. *)
Lemma rejected_move_queries_and_returns_None :
  let relative := move Bench.real_motor (Whole.Int 20) "relative" true
                    (fresh Bench.at_170) in
  let rejected := move Bench.real_motor (Whole.Int 200) "absolute" true
                    (fresh Bench.healthy) in
  let accepted := move Bench.real_motor (Whole.Int 10) "absolute" true
                    (fresh Bench.healthy) in
  fst (new_position_of Bench.real_motor (Whole.Int 20) "relative"
         (fresh Bench.at_170))
  = Returns (Whole.Float 190)
  /\ allowed Bench.real_motor (Whole.Float 190) = false
  /\ transport_calls (snd relative) = [EQuery 0 "1TP?"]
  /\ transport_calls (snd relative) <> []
  /\ allowed Bench.real_motor (Whole.Int 200) = false
  /\ allowed Bench.real_motor (Whole.Int 10) = true
  /\ fst rejected = Returns PyNone
  /\ fst accepted = fst rejected.
Proof.
  intros relative rejected accepted.
  repeat (split; [reflexivity|]).
  split; [intros Heq; vm_compute in Heq; discriminate|].
  repeat split.
Qed.

Lemma Whole_le_trans (x y z : Whole.t) :
  py_le x y = true -> py_le y z = true -> py_le x z = true.
Proof.
  unfold py_le. simpl. unfold Whole.le. rewrite !Z.leb_le. lia.
Qed.

(** The float [180.0] on the upper bound [180]. *)
Lemma move_to_a_bound_is_sent_witness :
  let target := Whole.Float 180 in
  (py_eq target (fst (bounds Bench.real_motor)) = true
   \/ py_eq target (snd (bounds Bench.real_motor)) = true)
  /\ py_le (fst (bounds Bench.real_motor)) (snd (bounds Bench.real_motor))
     = true
  /\ (forall x y z : Whole.t,
        py_le x y = true -> py_le y z = true -> py_le x z = true)
  /\ transport_calls
       (snd (move Bench.real_motor target "absolute" true
               (fresh Bench.healthy)))
     = [EWrite 0 "1PA180.0;1WS0"; EQuery 0 "TE?"].
Proof.
  intros target.
  assert (Hon : py_eq target (fst (bounds Bench.real_motor)) = true
                \/ py_eq target (snd (bounds Bench.real_motor)) = true)
    by (right; reflexivity).
  assert (Hord : py_le (fst (bounds Bench.real_motor))
                   (snd (bounds Bench.real_motor)) = true) by reflexivity.
  split; [exact Hon|].
  split; [exact Hord|]. split; [exact Whole_le_trans|].
  destruct (move_to_a_bound_is_sent Bench.real_motor target true
              (fresh Bench.healthy) Hon Hord Whole_le_trans)
    as (_ & Hmove & _).
  now rewrite Hmove.
Defined.

(** Axis 1 is asked for 30 and reports 29.0: axis 2 is sent to 74.0. *)
Lemma set_targets_achieved_position_plus_45_witness :
  let w := fresh Bench.rounding_controller in
  let first := move Bench.real_motor (Whole.Int 30) "absolute" true w in
  let readback := get_current_position Bench.real_motor (snd first) in
  first = (Returns PyNone, snd first)
  /\ readback = (Returns (Whole.Float 29), snd readback)
  /\ transport_calls (snd (set Bench.real_polarizer (Whole.Int 30) true w))
     = [EWrite 0 "1PA30;1WS0"; EQuery 0 "TE?"; EQuery 0 "1TP?";
        EWrite 1 "2PA74.0;2WS0"; EQuery 1 "TE?"].
Proof.
  intros w first readback.
  assert (Hfirst : first = (Returns PyNone, snd first)) by reflexivity.
  assert (Hread : readback = (Returns (Whole.Float 29), snd readback))
    by reflexivity.
  split; [exact Hfirst|]. split; [exact Hread|].
  destruct (set_targets_achieved_position_plus_45 Bench.real_polarizer
              (Whole.Int 30) true w PyNone (snd first) (Whole.Float 29)
              (snd readback) Hfirst Hread) as (Hset & _).
  now rewrite Hset.
Defined.

(** * Further properties of the module *)

(** ** The error decoder and the result of [send_command] *)

Lemma stripped_zero_was_zero (axis_number : Z) (err : string) :
  strip_axis_number axis_number err = Returns "0" -> err = "0".
Proof.
  destruct err as [|c rest]; [discriminate|].
  unfold strip_axis_number.
  destruct (String.eqb (String c EmptyString) (str_int axis_number)
            && (2 <? Z.of_nat (String.length (String c rest)))%Z)
    eqn:Hstrip.
  - apply andb_true_iff in Hstrip as [_ Hlen]. apply Z.ltb_lt in Hlen.
    intros [= ->]. simpl in Hlen. lia.
  - intros Heq. congruence.
Qed.

(** Stripping never produces the success code: the decoder ends with
    ["0"] only when the controller answered exactly ["0"].  An answer such
    as ["10"] on axis 1, or ["100"], is an error. *)
Theorem decoder_zero_only_from_zero (axis_number : Z) (err : string) :
  strip_axis_number axis_number err = Returns "0" <-> err = "0".
Proof.
  split; [apply stripped_zero_was_zero|intros ->; apply zero_not_stripped].
Qed.

Section SendCommandResult.

Context {num : Type} `{PyNumber num}.
Implicit Types (self : Motor num) (w : world) (command : string).
Implicit Types (parameter : pyarg num).

(** [send_command] in real mode, step by step. *)
Lemma send_command_steps self h command parameter opcode w r1 w1 text w2 :
  testflight self = false ->
  instrument self = Resource h ->
  COMMANDS !! command = Some opcode ->
  let full_command :=
    wire_string (str_int (axis self)) opcode (format_arg parameter) "WS"
      (str_contains "move" command) in
  write_command self full_command 1 (after w (ESleep 1)) = (r1, w1) ->
  query_command self "TE?" 1 w1 = (Returns text, w2) ->
  send_command self command parameter w
  = check_error_code self full_command text w2.
Proof.
  intros Ht Hi Hop full_command Hwrite Hquery.
  rewrite (write_command_closed _ h) in Hwrite by done.
  injection Hwrite as <- <-.
  rewrite (query_command_closed _ h) in Hquery by done.
  injection Hquery as <- <-.
  now rewrite (send_command_real _ h _ _ opcode) by done.
Qed.

(** Decoding, once the answer has been stripped to [code]. *)
Lemma check_error_code_stripped self full_command err code w :
  strip_axis_number (axis self) err = Returns code ->
  check_error_code self full_command err w
  = (if negb (String.eqb code "0") then
       match ERROR_CODES !! code with
       | Some description =>
           logprint ("Error code " +:+ code +:+ ": " +:+ description +:+
                     " on device " +:+ dquote +:+ name self +:+ dquote +:+
                     " while executing command " +:+ dquote +:+
                     full_command +:+ dquote +:+ ".") (Some "red")
       | None =>
           logprint ("Error code " +:+ code +:+ " on device " +:+
                     name self +:+ ".") (Some "red")
       end ;;
       ret false
     else ret true) w.
Proof.
  intros Hstrip. unfold check_error_code, bind at 1, lift_result.
  now rewrite Hstrip.
Qed.

(** What [send_command] makes of the answer to its error query: an empty
    answer raises IndexError (at [err[0]]); the answer ["0"] gives [True]
    and no log line; every other answer gives [False]. *)
Theorem send_command_result_by_answer self h command parameter opcode w r1
    w1 text w2 :
  testflight self = false ->
  instrument self = Resource h ->
  COMMANDS !! command = Some opcode ->
  write_command self
    (wire_string (str_int (axis self)) opcode (format_arg parameter) "WS"
       (str_contains "move" command)) 1 (after w (ESleep 1))
  = (r1, w1) ->
  query_command self "TE?" 1 w1 = (Returns text, w2) ->
  (text = EmptyString ->
   send_command self command parameter w = (Raises IndexError, w2))
  /\ (text = "0" ->
      send_command self command parameter w = (Returns true, w2))
  /\ (text <> EmptyString -> text <> "0" ->
      fst (send_command self command parameter w) = Returns false).
Proof.
  intros Ht Hi Hop Hwrite Hquery.
  rewrite (send_command_steps _ h _ _ opcode w r1 w1 text w2) by done.
  split; [intros ->; reflexivity|]. split.
  - intros ->.
    now rewrite (check_error_code_stripped _ _ _ "0")
      by apply zero_not_stripped.
  - intros Hne Hnz.
    destruct (strip_axis_number (axis self) text) as [code|e] eqn:Hstrip.
    + assert (Hcode : code <> "0").
      { intros ->. now apply stripped_zero_was_zero in Hstrip. }
      apply String.eqb_neq in Hcode.
      rewrite (check_error_code_stripped _ _ _ code) by done.
      rewrite Hcode. simpl negb. cbv iota.
      unfold bind, logprint, emit, ret.
      now destruct (ERROR_CODES !! code).
    + destruct text; [done|]. unfold strip_axis_number in Hstrip.
      now destruct (_ && _).
Qed.

(** A code of the error table is reported with its description, the name
    of the device and the exact command. *)
Theorem send_command_reports_known_code self h command parameter opcode w
    r1 w1 text w2 code description :
  testflight self = false ->
  instrument self = Resource h ->
  COMMANDS !! command = Some opcode ->
  let full_command :=
    wire_string (str_int (axis self)) opcode (format_arg parameter) "WS"
      (str_contains "move" command) in
  write_command self full_command 1 (after w (ESleep 1)) = (r1, w1) ->
  query_command self "TE?" 1 w1 = (Returns text, w2) ->
  strip_axis_number (axis self) text = Returns code ->
  ERROR_CODES !! code = Some description ->
  send_command self command parameter w
  = (Returns false,
     after w2
       (ELog ("Error code " +:+ code +:+ ": " +:+ description +:+
              " on device " +:+ dquote +:+ name self +:+ dquote +:+
              " while executing command " +:+ dquote +:+
              full_command +:+ dquote +:+ ".") (Some "red"))).
Proof.
  intros Ht Hi Hop full_command Hwrite Hquery Hstrip Hcode.
  rewrite (send_command_steps _ h _ _ opcode w r1 w1 text w2) by done.
  fold full_command.
  rewrite (check_error_code_stripped _ _ _ code) by done.
  assert (Hnz : code <> "0") by (intros ->; discriminate).
  apply String.eqb_neq in Hnz.
  rewrite Hnz. simpl negb. cbv iota.
  rewrite Hcode. reflexivity.
Qed.

End SendCommandResult.

(** ** How many transport calls a call makes *)

Lemma attempts_bounds (o : nat -> outcome) (n : nat) :
  (1 <= attempts o n <= 3)%nat.
Proof. unfold attempts. destruct (o n), (o (S n)); lia. Qed.

Lemma transport_calls_app w w' (l : list event) :
  trace w' = (trace w ++ l)%list ->
  transport_calls w'
  = (transport_calls w ++ List.filter is_transport_call l)%list.
Proof.
  intros Hl. unfold transport_calls. now rewrite Hl, List.filter_app.
Qed.

Section Attempts.

Context {num : Type} `{PyNumber num}.
Implicit Types (self : Motor num) (w : world) (command : string).
Implicit Types (parameter : pyarg num).

Lemma after_write_command_attempts self h command w :
  transport_calls (after_write_command self h command w)
  = (transport_calls w
     ++ repeat (EWrite h command) (attempts (oracle w) (ncalls w)))%list
  /\ ncalls (after_write_command self h command w)
     = (ncalls w + attempts (oracle w) (ncalls w))%nat
  /\ oracle (after_write_command self h command w) = oracle w.
Proof.
  unfold after_write_command, attempts, after_giving_up, after_failure,
    transport_calls.
  destruct (oracle w (ncalls w)); [destruct (oracle w (S (ncalls w)));
    [destruct (oracle w (S (S (ncalls w))))|]|];
    simpl; rewrite ?List.filter_app; simpl;
    rewrite <- ?List.app_assoc; simpl; repeat split; lia.
Qed.

Lemma query_command_outcome_attempts self h command w :
  transport_calls (snd (query_command_outcome self h command w))
  = (transport_calls w
     ++ repeat (EQuery h command) (attempts (oracle w) (ncalls w)))%list
  /\ ncalls (snd (query_command_outcome self h command w))
     = (ncalls w + attempts (oracle w) (ncalls w))%nat
  /\ fst (query_command_outcome self h command w)
     = match oracle w (ncalls w + attempts (oracle w) (ncalls w) - 1) with
       | Replies text => text
       | Fails => "VisaIOError"
       end.
Proof.
  unfold query_command_outcome, attempts, after_giving_up, after_failure,
    transport_calls.
  destruct (oracle w (ncalls w)) eqn:H0;
    [destruct (oracle w (S (ncalls w))) eqn:H1;
     [destruct (oracle w (S (S (ncalls w)))) eqn:H2|]|];
    simpl; rewrite ?List.filter_app; simpl;
    rewrite <- ?List.app_assoc; simpl;
    (split; [reflexivity|]); (split; [lia|]).
  - replace (ncalls w + 3 - 1)%nat with (S (S (ncalls w))) by lia.
    now rewrite H2.
  - replace (ncalls w + 3 - 1)%nat with (S (S (ncalls w))) by lia.
    now rewrite H2.
  - replace (ncalls w + 2 - 1)%nat with (S (ncalls w)) by lia.
    now rewrite H1.
  - replace (ncalls w + 1 - 1)%nat with (ncalls w) by lia.
    now rewrite H0.
Qed.

(** [write_command(command)] sends the same command again at each attempt,
    stops at the first attempt that does not fail, and never makes a
    fourth. *)
Theorem write_command_attempts self h command w :
  instrument self = Resource h ->
  exists w',
    write_command self command 1 w = (Returns PyNone, w')
    /\ transport_calls w'
       = (transport_calls w
          ++ repeat (EWrite h command) (attempts (oracle w) (ncalls w)))%list
    /\ (1 <= attempts (oracle w) (ncalls w) <= 3)%nat.
Proof.
  intros Hi. exists (after_write_command self h command w).
  split; [now apply write_command_closed|].
  split; [apply after_write_command_attempts|apply attempts_bounds].
Qed.

(** [query_command(command)] does the same with the query, and returns
    the text of the first attempt that does not fail, or ['VisaIOError']
    when all three fail. *)
Theorem query_command_attempts self h command w :
  instrument self = Resource h ->
  exists w',
    query_command self command 1 w
    = (Returns
         match oracle w (ncalls w + attempts (oracle w) (ncalls w) - 1) with
         | Replies text => text
         | Fails => "VisaIOError"
         end, w')
    /\ transport_calls w'
       = (transport_calls w
          ++ repeat (EQuery h command) (attempts (oracle w) (ncalls w)))%list
    /\ (1 <= attempts (oracle w) (ncalls w) <= 3)%nat.
Proof.
  intros Hi. exists (snd (query_command_outcome self h command w)).
  destruct (query_command_outcome_attempts self h command w)
    as (Hcalls & _ & Htext).
  split; [|split; [exact Hcalls|apply attempts_bounds]].
  rewrite <- Htext. now apply query_command_closed.
Qed.

Lemma send_command_calls self h command parameter opcode w :
  testflight self = false ->
  instrument self = Resource h ->
  COMMANDS !! command = Some opcode ->
  let writes := attempts (oracle w) (ncalls w) in
  let queries := attempts (oracle w) (ncalls w + writes) in
  transport_calls (snd (send_command self command parameter w))
  = (transport_calls w
     ++ repeat (EWrite h (wire_string (str_int (axis self)) opcode
                            (format_arg parameter) "WS"
                            (str_contains "move" command))) writes
     ++ repeat (EQuery h "TE?") queries)%list.
Proof.
  intros Ht Hi Hop writes queries.
  rewrite (send_command_real _ h _ _ opcode) by done. cbv zeta.
  set (full := wire_string _ _ _ _ _).
  set (w1 := after_write_command self h full (after w (ESleep 1))).
  destruct (after_write_command_attempts self h full (after w (ESleep 1)))
    as (Hc1 & Hn1 & Ho1). fold w1 in Hc1, Hn1, Ho1.
  destruct (query_command_outcome_attempts self h "TE?" w1)
    as (Hc2 & _ & _).
  destruct (check_error_code_world self full
              (fst (query_command_outcome self h "TE?" w1))
              (snd (query_command_outcome self h "TE?" w1)))
    as (r & l & -> & Hlogs).
  simpl snd.
  set (w2 := snd (query_command_outcome self h "TE?" w1)) in *.
  rewrite (transport_calls_app w2
             {| oracle := oracle w2; ncalls := ncalls w2;
                trace := trace w2 ++ l |} l eq_refl).
  assert (Hnone : List.filter is_transport_call l = []).
  { clear -Hlogs. induction Hlogs as [|e l He _ IH]; [reflexivity|].
    simpl. destruct e; try discriminate. exact IH. }
  rewrite Hnone, app_nil_r, Hc2, Hc1, Ho1, Hn1. simpl oracle. simpl ncalls.
  assert (Hsleep : transport_calls (after w (ESleep 1)) = transport_calls w).
  { unfold transport_calls, after. simpl. rewrite List.filter_app. simpl.
    now rewrite app_nil_r. }
  rewrite Hsleep. now rewrite <- List.app_assoc.
Qed.

(** One [send_command] in real mode reaches the transport with one to three
    writes of the wire string followed by one to three queries of ["TE?"],
    and with nothing else. *)
Theorem send_command_transport_calls self h command parameter opcode w :
  testflight self = false ->
  instrument self = Resource h ->
  COMMANDS !! command = Some opcode ->
  let writes := attempts (oracle w) (ncalls w) in
  let queries := attempts (oracle w) (ncalls w + writes) in
  transport_calls (snd (send_command self command parameter w))
  = (transport_calls w
     ++ repeat (EWrite h (wire_string (str_int (axis self)) opcode
                            (format_arg parameter) "WS"
                            (str_contains "move" command))) writes
     ++ repeat (EQuery h "TE?") queries)%list
  /\ (1 <= writes <= 3)%nat /\ (1 <= queries <= 3)%nat.
Proof.
  intros Ht Hi Hop writes queries.
  split; [now apply send_command_calls|split; apply attempts_bounds].
Qed.

End Attempts.

(** ** Exceptions *)

Lemma drop_last_app (s : string) (c : ascii) :
  drop_last (s +:+ String c EmptyString) = s.
Proof.
  induction s as [|x s IH]; [reflexivity|].
  change (String x s +:+ String c EmptyString)
    with (String x (s +:+ String c EmptyString)).
  simpl. rewrite IH.
  destruct s; reflexivity.
Qed.

Section Exceptions.

Context {num : Type} `{PyNumber num}.
Implicit Types (self : Motor num) (w : world) (command mode : string).
Implicit Types (parameter : pyarg num).

Lemma check_error_code_raises self full_command err w e :
  fst (check_error_code self full_command err w) = Raises e ->
  e = IndexError /\ err = EmptyString.
Proof.
  destruct err as [|c rest]; [cbn; intros [= <-]; done|].
  destruct (strip_axis_number_exactly (axis self) c rest)
    as (code & Hstrip & _).
  rewrite (check_error_code_stripped _ _ _ code) by done.
  destruct (negb (String.eqb code "0")); [|discriminate].
  unfold bind, logprint, emit, ret.
  destruct (ERROR_CODES !! code); discriminate.
Qed.

Lemma send_command_known_raises self h command parameter opcode w e :
  instrument self = Resource h ->
  COMMANDS !! command = Some opcode ->
  fst (send_command self command parameter w) = Raises e ->
  e = IndexError.
Proof.
  intros Hi Hop. destruct (testflight self) eqn:Ht.
  { now rewrite send_command_testflight. }
  rewrite (send_command_real _ h _ _ opcode) by done. cbv zeta.
  intros Hraise. now apply check_error_code_raises in Hraise as [-> _].
Qed.

(** No [pyvisa.VisaIOError] leaves [send_command]: on a real instrument
    the only exceptions it raises are KeyError, for an operation without an
    opcode, and IndexError, when the answer to the error query is empty. *)
Theorem send_command_exceptions self h command parameter w e :
  instrument self = Resource h ->
  fst (send_command self command parameter w) = Raises e ->
  (e = KeyError command /\ COMMANDS !! command = None)
  \/ (e = IndexError /\ is_Some (COMMANDS !! command)).
Proof.
  intros Hi. destruct (testflight self) eqn:Ht.
  { now rewrite send_command_testflight. }
  destruct (COMMANDS !! command) as [opcode|] eqn:Hop.
  - rewrite (send_command_real _ h _ _ opcode) by done. cbv zeta.
    intros Hraise. apply check_error_code_raises in Hraise as [-> _].
    right. split; [reflexivity|]. now exists opcode.
  - rewrite send_command_unknown by done. intros [= <-]. now left.
Qed.

(** [send_ASCII_command] does not retry: a transport failure of its write
    or of its error query leaves the method as the exception, the first
    after one transport call and the second after two; and when both get
    through, the method returns [True] exactly for the answer ["0"]. *)
Theorem send_ASCII_command_does_not_retry self h command w :
  testflight self = false ->
  instrument self = Resource h ->
  (oracle w (ncalls w) = Fails ->
   send_ASCII_command self command w
   = (Raises VisaIOError, after_call w (EWrite h command)))
  /\ (forall written,
        oracle w (ncalls w) = Replies written ->
        oracle w (S (ncalls w)) = Fails ->
        send_ASCII_command self command w
        = (Raises VisaIOError,
           after_call (after_call w (EWrite h command)) (EQuery h "TE?")))
  /\ (forall written text,
        oracle w (ncalls w) = Replies written ->
        oracle w (S (ncalls w)) = Replies text ->
        text <> EmptyString ->
        fst (send_ASCII_command self command w)
        = Returns (String.eqb text "0")).
Proof.
  intros Ht Hi. unfold send_ASCII_command. rewrite Ht, Hi.
  split; [|split].
  - intros H0. unfold bind at 1. now rewrite instrument_write_fails.
  - intros written H0 H1. unfold bind at 1.
    rewrite (instrument_write_replies _ _ _ written) by done.
    unfold bind at 1, dict_get. rewrite read_error_code_opcode.
    unfold ret at 1. unfold bind at 1, instrument_query.
    now rewrite transport_fails.
  - intros written text H0 H1 Hne. unfold bind at 1.
    rewrite (instrument_write_replies _ _ _ written) by done.
    unfold bind at 1, dict_get. rewrite read_error_code_opcode.
    unfold ret at 1. unfold bind at 1, instrument_query.
    rewrite (transport_replies _ _ text) by done.
    destruct text as [|c rest]; [done|].
    destruct (strip_axis_number_exactly (axis self) c rest)
      as (code & Hstrip & _).
    unfold bind at 1, lift_result. rewrite Hstrip.
    destruct (String.eqb (String c rest) "0") eqn:Hzero.
    + apply String.eqb_eq in Hzero. rewrite Hzero in Hstrip.
      rewrite zero_not_stripped in Hstrip. injection Hstrip as <-.
      reflexivity.
    + assert (Hcode : code <> "0").
      { intros ->. apply stripped_zero_was_zero in Hstrip.
        apply String.eqb_neq in Hzero. contradiction. }
      apply String.eqb_neq in Hcode. rewrite Hcode. simpl negb. cbv iota.
      unfold bind, logprint, emit, ret.
      now destruct (ERROR_CODES !! code).
Qed.

Lemma get_current_position_fails self h w :
  testflight self = false ->
  instrument self = Resource h ->
  oracle w (ncalls w) = Fails ->
  get_current_position self w
  = (Raises VisaIOError,
     after_call w (EQuery h (str_int (axis self) +:+ "TP?"))).
Proof.
  intros Ht Hi Ho. unfold get_current_position. rewrite Ht, Hi.
  unfold bind, instrument_query. now rewrite transport_fails.
Qed.

(** The position query is not retried either, and the last character of
    its answer is dropped before [float] reads it: an answer that is the
    text of a number followed by one more character gives that number; a
    transport failure leaves [get_current_position] as VisaIOError after
    the one call. *)
Theorem get_current_position_reads_answer self h w :
  testflight self = false ->
  instrument self = Resource h ->
  (forall text c p,
     oracle w (ncalls w) = Replies (text +:+ String c EmptyString) ->
     py_float text = Some p ->
     get_current_position self w
     = (Returns p,
        after_call w (EQuery h (str_int (axis self) +:+ "TP?"))))
  /\ (oracle w (ncalls w) = Fails ->
      get_current_position self w
      = (Raises VisaIOError,
         after_call w (EQuery h (str_int (axis self) +:+ "TP?")))).
Proof.
  intros Ht Hi. split.
  - intros text c p Ho Hp.
    apply (get_current_position_real _ _ _ (text +:+ String c EmptyString));
      try done.
    now rewrite drop_last_app.
  - intros Ho. now apply get_current_position_fails.
Qed.

Lemma get_current_position_raises self h w e :
  instrument self = Resource h ->
  testflight self = false ->
  fst (get_current_position self w) = Raises e ->
  e = VisaIOError \/ e = ValueError.
Proof.
  intros Hi Ht. unfold get_current_position. rewrite Ht, Hi.
  unfold bind, instrument_query, transport.
  destruct (oracle w (ncalls w)); [intros [= <-]; now left|].
  destruct (py_float (drop_last text)); [discriminate|].
  intros [= <-]. now right.
Qed.

(** The exceptions of [move] on a real instrument.  An absolute move can
    only raise IndexError (an empty answer to the error query): transport
    failures are absorbed by the retries.  A relative move can also raise
    the VisaIOError or the ValueError of its position query.  Any other
    mode raises UnboundLocalError. *)
Theorem move_exceptions self h degrees mode verbose w e :
  testflight self = false ->
  instrument self = Resource h ->
  fst (move self degrees mode verbose w) = Raises e ->
  (mode = "absolute" /\ e = IndexError)
  \/ (mode = "relative"
      /\ (e = IndexError \/ e = VisaIOError \/ e = ValueError))
  \/ (mode <> "absolute" /\ mode <> "relative" /\ e = UnboundLocalError).
Proof.
  intros Ht Hi Hraise.
  assert (Hsend : forall target w0,
            fst ((send_command self "move to absolute position"
                    (ArgNum target) ;; ret PyNone) w0) = Raises e ->
            e = IndexError).
  { intros target w0. unfold bind, ret.
    destruct (send_command self _ _ w0) as [[b|e'] w'] eqn:Hs;
      [discriminate|].
    intros [= <-].
    apply (send_command_known_raises self h "move to absolute position"
             (ArgNum target) "PA" w0); [exact Hi|reflexivity|].
    now rewrite Hs. }
  destruct (new_position_of self degrees mode w) as [[target|e'] w1]
    eqn:Hnew.
  - assert (Hmode : mode = "absolute" \/ mode = "relative").
    { unfold new_position_of in Hnew.
      destruct (String.eqb mode "absolute") eqn:Ha;
        [left; now apply String.eqb_eq|].
      destruct (String.eqb mode "relative") eqn:Hr;
        [right; now apply String.eqb_eq|discriminate]. }
    destruct (allowed self target) eqn:Hok.
    + rewrite (move_accepted _ _ _ _ _ _ _ Hnew Hok) in Hraise.
      apply Hsend in Hraise. destruct Hmode; [left|right; left]; tauto.
    + now rewrite (move_rejected _ _ _ _ _ _ _ Hnew Hok) in Hraise.
  - unfold move, bind at 1 in Hraise. rewrite Hnew in Hraise.
    injection Hraise as <-. unfold new_position_of in Hnew.
    destruct (String.eqb mode "absolute") eqn:Ha; [discriminate|].
    apply String.eqb_neq in Ha.
    destruct (String.eqb mode "relative") eqn:Hr.
    + apply String.eqb_eq in Hr. right. left. split; [exact Hr|]. right.
      unfold bind in Hnew.
      destruct (get_current_position self w) as [[p|e''] w2] eqn:Hget;
        [discriminate|].
      injection Hnew as <- _.
      apply (get_current_position_raises self h w); try done.
      now rewrite Hget.
    + apply String.eqb_neq in Hr. right. right.
      injection Hnew as <- _. tauto.
Qed.

End Exceptions.

(** ** Initialization *)

Section Initialization.

Context {num : Type} `{PyNumber num}.
Implicit Types (self : Motor num) (w : world) (command : string).
Implicit Types (parameter : pyarg num).

(** When the controller never answers with an empty line, a real
    [send_command] of a known operation returns. *)
Lemma send_command_returns self h command parameter opcode w :
  testflight self = false ->
  instrument self = Resource h ->
  COMMANDS !! command = Some opcode ->
  (forall k, oracle w k <> Replies EmptyString) ->
  let writes := attempts (oracle w) (ncalls w) in
  let queries := attempts (oracle w) (ncalls w + writes) in
  exists b w',
    send_command self command parameter w = (Returns b, w')
    /\ oracle w' = oracle w
    /\ ncalls w' = (ncalls w + writes + queries)%nat
    /\ transport_calls w'
       = (transport_calls w
          ++ repeat (EWrite h (wire_string (str_int (axis self)) opcode
                                 (format_arg parameter) "WS"
                                 (str_contains "move" command))) writes
          ++ repeat (EQuery h "TE?") queries)%list.
Proof.
  intros Ht Hi Hop Hanswers writes queries.
  pose proof (send_command_calls self h command parameter opcode
                w Ht Hi Hop) as Hcalls.
  cbv zeta in Hcalls. fold writes queries in Hcalls.
  rewrite (send_command_real _ h _ _ opcode) in * by done.
  cbv zeta in *.
  set (full := wire_string _ _ _ _ _) in *.
  set (w1 := after_write_command self h full (after w (ESleep 1))) in *.
  destruct (after_write_command_attempts self h full (after w (ESleep 1)))
    as (_ & Hn1 & Ho1). fold w1 in Hn1, Ho1. simpl in Hn1, Ho1.
  destruct (query_command_outcome_attempts self h "TE?" w1)
    as (_ & Hn2 & Htext).
  destruct (after_write_command_calls self h full (after w (ESleep 1)))
    as (_ & _ & _).
  destruct (query_command_outcome_calls self h "TE?" w1) as (Ho2 & _ & _).
  set (q := query_command_outcome self h "TE?" w1) in *.
  destruct (check_error_code_world self full (fst q) (snd q))
    as (r & l & Hcheck & _).
  destruct r as [b|e].
  - exists b. eexists. split; [exact Hcheck|]. rewrite Hcheck in Hcalls.
    simpl. split; [now rewrite Ho2, Ho1|]. split; [|exact Hcalls].
    rewrite Hn2, Hn1, Ho1. unfold queries, writes. lia.
  - exfalso.
    assert (Hraise : fst (check_error_code self full (fst q) (snd q))
                     = Raises e) by now rewrite Hcheck.
    apply check_error_code_raises in Hraise as [_ Hempty].
    rewrite Hempty in Htext. rewrite Ho1 in Htext.
    destruct (oracle w _) as [|text] eqn:Ho in Htext; [discriminate|].
    subst text. now apply Hanswers in Ho.
Qed.

(** [Motor(...)] on a real instrument sends "set velocity" and then "set
    home search mode" with parameter 0, each written one to three times and
    followed by one to three error queries, and returns the motor whatever
    error codes the controller answers (lines 105-106 drop the results of
    [send_command]); the motor has no [current_position]. *)
Theorem Motor_init_real (name : string) (h : nat) (axis : Z)
    (bounds : num * num) (velocity : num) w :
  (forall k, oracle w k <> Replies EmptyString) ->
  let k1 := attempts (oracle w) (ncalls w) in
  let j1 := attempts (oracle w) (ncalls w + k1) in
  let k2 := attempts (oracle w) (ncalls w + k1 + j1) in
  let j2 := attempts (oracle w) (ncalls w + k1 + j1 + k2) in
  exists w',
    Motor_init name (Resource h) axis bounds velocity false w
    = (Returns {| name := name; instrument := Resource h; axis := axis;
                  bounds := bounds; velocity := velocity;
                  testflight := false; current_position := None |}, w')
    /\ transport_calls w'
       = (transport_calls w
          ++ repeat (EWrite h (str_int axis +:+ "VA" +:+ py_format velocity))
               k1
          ++ repeat (EQuery h "TE?") j1
          ++ repeat (EWrite h (str_int axis +:+ "OM" +:+
                               py_format (py_int 0))) k2
          ++ repeat (EQuery h "TE?") j2)%list.
Proof.
  intros Hanswers k1 j1 k2 j2. unfold Motor_init.
  set (self := {| name := name; instrument := Resource h |}).
  destruct (send_command_returns self h "set velocity" (ArgNum velocity)
              "VA" w eq_refl eq_refl eq_refl Hanswers)
    as (b1 & w1 & Hs1 & Ho1 & Hn1 & Hc1).
  fold k1 j1 in Hn1, Hc1.
  assert (Hanswers1 : forall k, oracle w1 k <> Replies EmptyString)
    by (intros k; rewrite Ho1; apply Hanswers).
  destruct (send_command_returns self h "set home search mode"
              (ArgNum (py_int 0)) "OM" w1 eq_refl eq_refl eq_refl Hanswers1)
    as (b2 & w2 & Hs2 & Ho2 & Hn2 & Hc2).
  rewrite Ho1, Hn1 in Hc2. fold k2 j2 in Hc2.
  exists w2. unfold bind. rewrite Hs1, Hs2. split; [reflexivity|].
  rewrite Hc2, Hc1. rewrite <- !List.app_assoc. reflexivity.
Qed.

(** In testflight mode [Polarizer(...)] touches nothing, and a [set] on
    the polarizer it returns sends the quarter-wave plate to [0.0 + 45]
    whatever [degrees] is: the first move leaves the simulated position at
    [0.0], and that is what is read back. *)
Theorem simulated_set_ignores_degrees (inst1 inst2 : device) (ax1 ax2 : Z)
    (bounds : num * num) (velocity degrees : num) (verbose : bool) w :
  let lin := {| name := "linear polarizer"; instrument := inst1;
                axis := ax1; bounds := bounds; velocity := velocity;
                testflight := true; current_position := Some py_float0 |} in
  let quart := {| name := "quarter wave plate"; instrument := inst2;
                  axis := ax2; bounds := bounds; velocity := velocity;
                  testflight := true;
                  current_position := Some py_float0 |} in
  Polarizer_init inst1 inst2 ax1 ax2 bounds velocity true w
  = (Returns {| lin_polarizer := lin; quart_lambda := quart |}, w)
  /\ exists w1,
       move lin degrees "absolute" verbose w = (Returns PyNone, w1)
       /\ transport_calls w1 = transport_calls w
       /\ (p <- Polarizer_init inst1 inst2 ax1 ax2 bounds velocity true ;;
           set p degrees verbose) w
          = move quart (py_add py_float0 (py_int 45)) "absolute" verbose w1.
Proof.
  intros lin quart. split; [reflexivity|].
  destruct (move_testflight lin degrees "absolute" verbose w py_float0
              eq_refl eq_refl (or_introl eq_refl)) as (w1 & Hmove & Hsame).
  exists w1. split; [exact Hmove|]. split; [exact Hsame|].
  unfold bind at 1. change (Polarizer_init _ _ _ _ _ _ true w)
    with (Returns {| lin_polarizer := lin; quart_lambda := quart |}, w).
  cbv beta iota. unfold set. unfold bind at 1. simpl lin_polarizer.
  rewrite Hmove. unfold bind at 1.
  now rewrite (get_current_position_testflight lin py_float0).
Qed.

End Initialization.

(** ** The composite after the first move *)

Section CompositeFailures.

Context {num : Type} `{PyNumber num}.
Implicit Types (self : Polarizer num) (w : world).

(** No rollback: when the target derived for the quarter-wave plate is
    outside its bounds, [set] logs the rejection and returns [None]; it
    sends nothing more, and the command already written for the linear
    polarizer stays in effect. *)
Theorem set_does_not_roll_back self degrees verbose w r1 w1 p w2 :
  move (lin_polarizer self) degrees "absolute" verbose w
  = (Returns r1, w1) ->
  get_current_position (lin_polarizer self) w1 = (Returns p, w2) ->
  allowed (quart_lambda self) (py_add p (py_int 45)) = false ->
  let rejection :=
    ELog ("Desired position " +:+ py_format (py_add p (py_int 45)) +:+
          " is out of operating bounds of axis " +:+
          str_int (axis (quart_lambda self)) +:+ ".") (Some "red") in
  set self degrees verbose w = (Returns PyNone, after w2 rejection)
  /\ transport_calls (after w2 rejection) = transport_calls w2
  /\ (forall h1,
        testflight (lin_polarizer self) = false ->
        instrument (lin_polarizer self) = Resource h1 ->
        allowed (lin_polarizer self) degrees = true ->
        exists l,
          trace w1
          = (trace (narrated (lin_polarizer self) degrees verbose w) ++
             ESleep 1
             :: EWrite h1
                  (wire_string (str_int (axis (lin_polarizer self))) "PA"
                     (py_format degrees) "WS" true)
             :: l)%list).
Proof.
  intros Hmove Hget Hout rejection.
  split; [|split].
  - unfold set, bind at 1. rewrite Hmove. unfold bind at 1. rewrite Hget.
    now apply move_rejected.
  - apply transport_calls_after_log.
  - intros h1 Ht Hi Hok.
    pose proof (move_accepted (lin_polarizer self) degrees "absolute"
                  verbose w degrees w eq_refl Hok) as Hacc.
    pose proof (send_command_real_trace (lin_polarizer self) h1
                  "move to absolute position" (ArgNum degrees) "PA"
                  (narrated (lin_polarizer self) degrees verbose w)
                  Ht Hi move_opcode) as [l Hl].
    exists l.
    assert (Hw1 : w1 = snd (send_command (lin_polarizer self)
                              "move to absolute position" (ArgNum degrees)
                              (narrated (lin_polarizer self) degrees
                                 verbose w))).
    { rewrite <- (snd_bind_ret _ PyNone), <- Hacc. now rewrite Hmove. }
    rewrite Hw1. exact Hl.
Qed.

(** The read-back is a bare query: if the transport fails it, [set] ends
    with VisaIOError after the linear polarizer has been moved, and the
    quarter-wave plate gets no command. *)
Theorem set_read_back_failure self h1 degrees verbose w r1 w1 :
  testflight (lin_polarizer self) = false ->
  instrument (lin_polarizer self) = Resource h1 ->
  move (lin_polarizer self) degrees "absolute" verbose w
  = (Returns r1, w1) ->
  oracle w1 (ncalls w1) = Fails ->
  set self degrees verbose w
  = (Raises VisaIOError,
     after_call w1
       (EQuery h1 (str_int (axis (lin_polarizer self)) +:+ "TP?"))).
Proof.
  intros Ht Hi Hmove Hfail. unfold set, bind at 1. rewrite Hmove.
  unfold bind at 1.
  now rewrite (get_current_position_fails (lin_polarizer self) h1 w1).
Qed.

End CompositeFailures.

(** ** Redefining home *)

Section Home.

Context {num : Type} `{PyNumber num}.
Implicit Types (self : Motor num) (w : world) (degrees : num).

(** Any answer but [Y] or [y] sends no command, whatever the transport
    does: all that [define_home] adds to the trace is its yellow log line
    and, in real mode, its position query. *)
Theorem define_home_declined self degrees choice w :
  choice <> "Y" -> choice <> "y" ->
  let w' := snd (define_home self degrees choice w) in
  exists l,
    trace w' = (trace w ++ l)%list
    /\ Forall (fun e =>
                 e = ELog ("New home sequence! " +:+ newline)
                       (Some "yellow")
                 \/ exists h, e = EQuery h (str_int (axis self) +:+ "TP?"))
         l.
Proof.
  intros HY Hy w'. apply String.eqb_neq in HY, Hy. unfold w'.
  unfold define_home, bind at 1. unfold logprint, emit.
  unfold bind at 1. rewrite HY, Hy. simpl orb. cbv iota.
  set (line := ELog _ _).
  assert (Hline : Forall (fun e => e = line
                    \/ exists h, e = EQuery h (str_int (axis self) +:+ "TP?"))
                    [line]) by (constructor; [now left|constructor]).
  unfold get_current_position.
  destruct (testflight self).
  - exists [line]. split; [|exact Hline].
    now destruct (current_position self).
  - unfold bind, instrument_query.
    destruct (instrument self) as [|h]; [now exists [line]|].
    unfold transport. simpl oracle. simpl ncalls.
    exists [line; EQuery h (str_int (axis self) +:+ "TP?")].
    split;
      [|constructor; [now left|]; constructor; [right; now exists h|];
        constructor].
    destruct (oracle w (ncalls w)); simpl;
      [|destruct (py_float (drop_last text)); simpl];
      now rewrite <- List.app_assoc.
Qed.

(** In testflight mode a confirmed [define_home] always logs that the new
    home position is saved, and nothing has reached a transport. *)
Theorem define_home_testflight_saved self degrees choice w p :
  testflight self = true ->
  current_position self = Some p ->
  choice = "Y" \/ choice = "y" ->
  exists w',
    define_home self degrees choice w
    = (Returns (home_dialogue p degrees), w')
    /\ trace w'
       = (trace w ++
          [ELog ("New home sequence! " +:+ newline) (Some "yellow");
           ELog "New home position saved." (Some "green")])%list
    /\ ncalls w' = ncalls w.
Proof.
  intros Ht Hp Hchoice.
  assert (Hyes : String.eqb choice "Y" || String.eqb choice "y" = true)
    by (destruct Hchoice as [-> | ->]; reflexivity).
  unfold define_home, bind at 1. unfold logprint, emit.
  unfold bind at 1. rewrite (get_current_position_testflight _ p) by done.
  rewrite Hyes. unfold bind at 1.
  rewrite send_command_testflight by done.
  unfold bind, ret. eexists. split; [reflexivity|]. simpl.
  split; [now rewrite <- List.app_assoc|reflexivity].
Qed.

(** In real mode, when the three attempts to write the "define home"
    command fail and the error query that follows is answered ["0"], a
    confirmed [define_home] logs that the new home position is saved. *)
Theorem define_home_saved_after_failed_writes self h degrees choice w p w1 :
  testflight self = false ->
  instrument self = Resource h ->
  choice = "Y" \/ choice = "y" ->
  get_current_position self
    (after w (ELog ("New home sequence! " +:+ newline) (Some "yellow")))
  = (Returns p, w1) ->
  oracle w1 (ncalls w1) = Fails ->
  oracle w1 (S (ncalls w1)) = Fails ->
  oracle w1 (S (S (ncalls w1))) = Fails ->
  oracle w1 (S (S (S (ncalls w1)))) = Replies "0" ->
  exists w2,
    define_home self degrees choice w
    = (Returns (home_dialogue p degrees),
       after w2 (ELog "New home position saved." (Some "green")))
    /\ transport_calls w2
       = (transport_calls w1
          ++ repeat (EWrite h (str_int (axis self) +:+ "DH" +:+
                               py_format degrees)) 3
          ++ [EQuery h "TE?"])%list.
Proof.
  intros Ht Hi Hchoice Hget H0 H1 H2 H3.
  assert (Hyes : String.eqb choice "Y" || String.eqb choice "y" = true)
    by (destruct Hchoice as [-> | ->]; reflexivity).
  pose proof (send_command_returns self h "define home" (ArgNum degrees)
                "DH" w1 Ht Hi eq_refl) as Hret.
  pose proof (send_command_calls self h "define home"
                (ArgNum degrees) "DH" w1 Ht Hi eq_refl) as Hcalls.
  cbv zeta in Hcalls.
  assert (Hw : attempts (oracle w1) (ncalls w1) = 3%nat)
    by (unfold attempts; now rewrite H0, H1).
  assert (Hq : attempts (oracle w1) (ncalls w1 + 3) = 1%nat).
  { unfold attempts.
    replace (ncalls w1 + 3)%nat with (S (S (S (ncalls w1)))) by lia.
    now rewrite H3. }
  rewrite Hw, Hq in Hcalls.
  pose proof (send_command_ignores_failed_write self h "define home"
                (ArgNum degrees) "DH" w1 Ht Hi eq_refl H0 H1 H2 H3)
    as Htrue.
  destruct (send_command self "define home" (ArgNum degrees) w1)
    as [r w2] eqn:Hsend. simpl in Htrue, Hcalls. subst r.
  exists w2. split; [|exact Hcalls].
  unfold define_home, bind at 1. unfold logprint, emit.
  unfold bind at 1. rewrite Hget, Hyes. unfold bind at 1. rewrite Hsend.
  reflexivity.
Qed.

End Home.

(** ** Substrings and the tab-joined device list *)

Lemma append_cons (x : ascii) (a b : string) :
  String x a +:+ b = String x (a +:+ b).
Proof. reflexivity. Qed.

Lemma length_append (a b : string) :
  String.length (a +:+ b) = (String.length a + String.length b)%nat.
Proof.
  induction a as [|x a IH]; [reflexivity|].
  rewrite append_cons. simpl. now rewrite IH.
Qed.

Lemma prefix_empty (s : string) : String.prefix EmptyString s = true.
Proof. now destruct s. Qed.

Lemma prefix_cons (x y : ascii) (sub s : string) :
  String.prefix (String x sub) (String y s) = true
  <-> x = y /\ String.prefix sub s = true.
Proof.
  simpl. destruct (ascii_dec x y) as [->|Hne]; [tauto|].
  split; [discriminate|]. intros [Heq _]. contradiction.
Qed.

Lemma prefix_length (sub s : string) :
  String.prefix sub s = true ->
  (String.length sub <= String.length s)%nat.
Proof.
  revert s. induction sub as [|x sub IH]; intros s Hp; [simpl; lia|].
  destruct s as [|y s]; [discriminate|].
  apply prefix_cons in Hp as [_ Hp]. apply IH in Hp. simpl. lia.
Qed.

Lemma str_contains_cons (sub : string) (y : ascii) (s : string) :
  str_contains sub (String y s)
  = String.prefix sub (String y s) || str_contains sub s.
Proof. reflexivity. Qed.

Lemma str_contains_nil (sub : string) :
  str_contains sub EmptyString = true <-> sub = EmptyString.
Proof. destruct sub; simpl; split; (reflexivity || discriminate). Qed.

Lemma str_contains_length (sub s : string) :
  str_contains sub s = true ->
  (String.length sub <= String.length s)%nat.
Proof.
  induction s as [|y s IH]; intros Hc.
  - apply str_contains_nil in Hc as ->. simpl. lia.
  - rewrite str_contains_cons in Hc. apply orb_true_iff in Hc as [Hp|Hc].
    + now apply prefix_length in Hp.
    + apply IH in Hc. simpl. lia.
Qed.

Lemma str_contains_empty (s : string) : str_contains EmptyString s = true.
Proof. destruct s; reflexivity. Qed.

Lemma prefix_refl (s : string) : String.prefix s s = true.
Proof. induction s as [|x s IH]; [reflexivity|]. now apply prefix_cons. Qed.

Lemma str_contains_refl (s : string) : str_contains s s = true.
Proof.
  destruct s; [reflexivity|]. rewrite str_contains_cons.
  now rewrite prefix_refl.
Qed.

Lemma prefix_app_l (sub a b : string) :
  String.prefix sub a = true -> String.prefix sub (a +:+ b) = true.
Proof.
  revert a. induction sub as [|x sub IH]; intros a Hp;
    [apply prefix_empty|].
  destruct a as [|y a]; [discriminate|].
  rewrite append_cons. apply prefix_cons in Hp as [-> Hp].
  apply prefix_cons. split; [reflexivity|now apply IH].
Qed.

Lemma str_contains_app_l (sub a b : string) :
  str_contains sub a = true -> str_contains sub (a +:+ b) = true.
Proof.
  induction a as [|y a IH]; intros Hc.
  - apply str_contains_nil in Hc as ->. apply str_contains_empty.
  - rewrite append_cons, str_contains_cons.
    rewrite str_contains_cons in Hc.
    apply orb_true_iff in Hc as [Hp|Hc]; apply orb_true_iff.
    + left. rewrite <- append_cons. now apply prefix_app_l.
    + right. now apply IH.
Qed.

Lemma str_contains_app_r (sub a b : string) :
  str_contains sub b = true -> str_contains sub (a +:+ b) = true.
Proof.
  intros Hc. induction a as [|y a IH]; [exact Hc|].
  rewrite append_cons, str_contains_cons. apply orb_true_iff. now right.
Qed.

(** A prefix that does not contain [c] ends before the first [c]. *)
Lemma prefix_before (c : ascii) (sub a b : string) :
  occurs c sub = false ->
  String.prefix sub (a +:+ String c b) = true ->
  String.prefix sub a = true.
Proof.
  revert a. induction sub as [|x sub IH]; intros a Hno Hp;
    [apply prefix_empty|].
  simpl in Hno. apply orb_false_iff in Hno as [Hx Hno].
  destruct a as [|y a].
  - change (EmptyString +:+ String c b) with (String c b) in Hp.
    apply prefix_cons in Hp as [<- _]. now rewrite Ascii.eqb_refl in Hx.
  - rewrite append_cons in Hp. apply prefix_cons in Hp as [-> Hp].
    apply prefix_cons. split; [reflexivity|now apply IH].
Qed.

(** A substring that does not contain [c] lies on one side of it. *)
Lemma str_contains_split (c : ascii) (sub a b : string) :
  occurs c sub = false ->
  str_contains sub (a +:+ String c b) = true ->
  str_contains sub a = true \/ str_contains sub b = true.
Proof.
  intros Hno. induction a as [|y a IH]; intros Hc.
  - change (EmptyString +:+ String c b) with (String c b) in Hc.
    rewrite str_contains_cons in Hc.
    apply orb_true_iff in Hc as [Hp|Hc]; [|now right].
    left. apply (prefix_before c sub EmptyString b Hno) in Hp.
    destruct sub; [reflexivity|discriminate].
  - rewrite append_cons, str_contains_cons in Hc.
    rewrite str_contains_cons.
    apply orb_true_iff in Hc as [Hp|Hc].
    + left. rewrite <- append_cons in Hp.
      apply (prefix_before c) in Hp; [|exact Hno]. now rewrite Hp.
    + destruct (IH Hc) as [Ha|Hb]; [left|now right].
      rewrite Ha. apply orb_true_r.
Qed.

Lemma join_tab_cons (device : string) (rest : list string) :
  rest <> [] ->
  join_tab (device :: rest) = device +:+ String tab (join_tab rest).
Proof. destruct rest; [contradiction|reflexivity]. Qed.

(** ** class ESP: finding the devices *)

Lemma str_contains_join (identifier device : string)
    (devices : list string) :
  In device devices ->
  str_contains identifier device = true ->
  str_contains identifier (join_tab devices) = true.
Proof.
  induction devices as [|d rest IH]; intros Hin Hc; [contradiction|].
  destruct rest as [|d' rest'].
  - destruct Hin as [->|[]]. exact Hc.
  - rewrite join_tab_cons by discriminate.
    destruct Hin as [->|Hin].
    + now apply str_contains_app_l.
    + apply str_contains_app_r. rewrite str_contains_cons.
      apply orb_true_iff. right. now apply IH.
Qed.

(** For an identifier that is not empty and has no tab in it, the test on
    the tab-joined list succeeds exactly when some device contains the
    identifier, so that [match] is a device and never [None]. *)
Theorem join_test_finds_a_device (identifier : string)
    (devices : list string) :
  occurs tab identifier = false ->
  identifier <> EmptyString ->
  listed devices identifier = true
  <-> exists device,
        first_match devices identifier = Some device
        /\ In device devices
        /\ str_contains identifier device = true.
Proof.
  intros Hno Hne. unfold listed, first_match. split.
  - induction devices as [|d rest IH]; intros Hc.
    + apply str_contains_nil in Hc. contradiction.
    + simpl List.find.
      destruct (str_contains identifier d) eqn:Hd.
      * exists d. repeat split; [now left|exact Hd].
      * destruct rest as [|d' rest'].
        { simpl in Hc. congruence. }
        rewrite join_tab_cons in Hc by discriminate.
        apply (str_contains_split tab _ _ _ Hno) in Hc as [Hc|Hc];
          [congruence|].
        destruct (IH Hc) as (device & Hfind & Hin & Hcd).
        exists device. repeat split; [exact Hfind|now right|exact Hcd].
  - intros (device & _ & Hin & Hc). now apply (str_contains_join _ device).
Qed.

(** An identifier that runs across a tab of the joined list passes the test
    of line 49 although no device contains it: [match] is [None], and
    [connect] calls [open_resource(None)]. *)
Theorem identifier_across_devices (env : ESP.environment) (d1 d2 : string)
    (instruments : list ESP.instrument) (acts : list ESP.action) :
  let identifier := d1 +:+ String tab d2 in
  listed [d1; d2] identifier = true
  /\ first_match [d1; d2] identifier = None
  /\ snd (ESP.connect_loop env [identifier] [d1; d2] instruments acts)
     = (acts ++ [ESP.OpenResource None])%list.
Proof.
  intros identifier.
  assert (Hlisted : listed [d1; d2] identifier = true)
    by apply str_contains_refl.
  assert (Hlen : String.length identifier
                 = S (String.length d1 + String.length d2)).
  { unfold identifier. rewrite length_append. simpl. lia. }
  assert (Hnone : first_match [d1; d2] identifier = None).
  { unfold first_match. simpl.
    destruct (str_contains identifier d1) eqn:H1;
      [apply str_contains_length in H1; lia|].
    destruct (str_contains identifier d2) eqn:H2;
      [apply str_contains_length in H2; lia|]. reflexivity. }
  split; [exact Hlisted|]. split; [exact Hnone|].
  unfold listed in Hlisted. unfold first_match in Hnone.
  simpl in Hlisted, Hnone. simpl ESP.connect_loop. rewrite Hlisted, Hnone.
  unfold ESP.vbind, ESP.open_resource, ESP.vbind, ESP.act.
  now destruct (ESP.open_error env None).
Qed.

Section Connect.

Variable env : ESP.environment.

Hypothesis opens : forall resource_name,
  ESP.open_error env resource_name = None.

Lemma connect_loop_closed_form (identifiers devices : list string)
    (instruments : list ESP.instrument) (acts : list ESP.action) :
  ESP.connect_loop env identifiers devices instruments acts
  = (Returns (instruments ++ connect_instruments devices identifiers)%list,
     (acts ++ connect_actions devices identifiers)%list).
Proof.
  revert instruments acts.
  induction identifiers as [|identifier rest IH]; intros instruments acts.
  - unfold connect_instruments, connect_actions. simpl.
    now rewrite !app_nil_r.
  - unfold connect_instruments, connect_actions in *. simpl.
    unfold listed in *. unfold first_match in *.
    destruct (str_contains identifier (join_tab devices)).
    + unfold ESP.vbind at 1. unfold ESP.open_resource, ESP.vbind, ESP.act.
      rewrite opens. unfold ESP.vret. rewrite IH. simpl.
      now rewrite <- !List.app_assoc.
    + unfold ESP.vbind, ESP.act. rewrite IH.
      now rewrite <- !List.app_assoc.
Qed.

Lemma connect_returns (self : ESP.t) (identifiers devices : list string)
    (acts : list ESP.action) :
  ESP.testflight self = false ->
  ESP.connect env self identifiers devices acts
  = (Returns (Some (connect_instruments devices identifiers)),
     (acts
      ++ ESP.Log ("Initializing new connections with ESP with identifiers:"
                  +:+ "      " +:+ ESP.identifiers_text env identifiers
                  +:+ ".") None
      :: connect_actions devices identifiers)%list).
Proof.
  intros Ht. unfold ESP.connect. rewrite Ht. change (negb false) with true.
  unfold ESP.vbind, ESP.act. cbv beta iota.
  rewrite connect_loop_closed_form. unfold ESP.vret. simpl.
  now rewrite <- List.app_assoc.
Qed.

(** When no [open_resource] raises, [connect] returns one configured
    instrument for each identifier that passes the test of line 49, in the
    order of the identifiers, and logs a red line for each of the others:
    the list is as long as [identifiers] only if every identifier passes,
    and a missing device shifts the instruments that follow it. *)
Theorem connect_closed_form (self : ESP.t) (identifiers devices : list string)
    (acts : list ESP.action) :
  ESP.testflight self = false ->
  ESP.connect env self identifiers devices acts
  = (Returns (Some (connect_instruments devices identifiers)),
     (acts
      ++ ESP.Log ("Initializing new connections with ESP with identifiers:"
                  +:+ "      " +:+ ESP.identifiers_text env identifiers
                  +:+ ".") None
      :: connect_actions devices identifiers)%list)
  /\ (List.length (connect_instruments devices identifiers)
      <= List.length identifiers)%nat
  /\ (List.length (connect_instruments devices identifiers)
      = List.length identifiers
      <-> Forall (fun identifier => listed devices identifier = true)
            identifiers).
Proof.
  intros Ht. split; [|split].
  - now apply connect_returns.
  - unfold connect_instruments. rewrite length_map.
    apply List.filter_length_le.
  - unfold connect_instruments. rewrite length_map.
    induction identifiers as [|identifier rest IH]; simpl.
    + split; [constructor|reflexivity].
    + pose proof (List.filter_length_le (listed devices) rest) as Hle.
      destruct (listed devices identifier) eqn:Hl; simpl.
      * split.
        -- intros Hlen. constructor; [exact Hl|]. apply IH. lia.
        -- intros Hall. inversion Hall; subst. f_equal. now apply IH.
      * split; [lia|]. intros Hall. inversion Hall; subst. congruence.
Qed.

End Connect.

(** ** class ESP: sessions *)

(** With [testflight=True], or on any platform but Windows whatever
    [testflight] is, [ESP(...)] creates no resource manager and opens
    nothing: it logs one line, ends in testflight mode with one
    ['fake instrument'] per identifier, and its [__del__] does nothing. *)
Theorem ESP_init_offline (env : ESP.environment) (identifiers : list string)
    (testflight : bool) (acts : list ESP.action) :
  testflight = true \/ ESP.platform env <> "win32" ->
  let self := {| ESP.testflight := true;
                 ESP.instruments := repeat ESP.Fake (List.length identifiers);
                 ESP.rm := false |} in
  (exists message colour,
     ESP.init env identifiers testflight acts
     = (Returns self, (acts ++ [ESP.Log message colour])%list))
  /\ forall acts', ESP.del env self acts' = (Returns tt, acts').
Proof.
  intros Hoff self. split; [|reflexivity].
  unfold ESP.init. destruct testflight.
  - eexists _, _. reflexivity.
  - destruct Hoff as [|Hne]; [discriminate|].
    apply String.eqb_neq in Hne. rewrite Hne. eexists _, _. reflexivity.
Qed.

Lemma close_all_opened (env : ESP.environment)
    (instruments : list ESP.instrument) (acts : list ESP.action) :
  Forall (fun i => i <> ESP.Fake) instruments ->
  ESP.close_all env instruments acts
  = (Returns tt,
     (acts ++ concat (map (disconnect_actions env) instruments))%list).
Proof.
  intros Hall. revert acts.
  induction Hall as [|i rest Hi _ IH]; intros acts.
  - simpl. unfold ESP.vret. now rewrite app_nil_r.
  - simpl ESP.close_all. unfold ESP.vbind at 1. unfold ESP.act.
    unfold ESP.vbind at 1. destruct i as [|n r wt t]; [contradiction|].
    unfold ESP.close, ESP.act. rewrite IH. simpl.
    now rewrite <- !List.app_assoc.
Qed.

Lemma connect_instruments_opened (devices identifiers : list string) :
  Forall (fun i => i <> ESP.Fake) (connect_instruments devices identifiers).
Proof.
  unfold connect_instruments. apply List.Forall_forall. intros i Hin.
  apply List.in_map_iff in Hin as (identifier & <- & _). discriminate.
Qed.

Lemma vbind_returns {A B} (m : ESP.V A) (k : A -> ESP.V B)
    (acts acts' : list ESP.action) (a : A) :
  m acts = (Returns a, acts') -> ESP.vbind m k acts = k a acts'.
Proof. intros Hm. unfold ESP.vbind. now rewrite Hm. Qed.

Lemma list_devices_real (env : ESP.environment) (self : ESP.t)
    (acts : list ESP.action) :
  ESP.testflight self = false ->
  ESP.list_devices env self acts
  = (Returns (Some (ESP.resources env)),
     (acts
      ++ [ESP.ListResources;
          ESP.Log ("Resource manager used:     " +:+ ESP.manager_text env)
            None;
          ESP.Log ("Detected devices:          " +:+
                   ESP.devices_text env (ESP.resources env)) None])%list).
Proof.
  intros Ht. unfold ESP.list_devices. rewrite Ht.
  change (negb false) with true. cbv iota.
  unfold ESP.vbind, ESP.act, ESP.vret. cbv beta iota.
  now rewrite <- !List.app_assoc.
Qed.

(** [ESP(...)] on Windows, when every [open_resource] returns. *)
Lemma ESP_init_windows (env : ESP.environment) (identifiers : list string)
    (acts : list ESP.action) :
  ESP.platform env = "win32" ->
  (forall resource_name, ESP.open_error env resource_name = None) ->
  let devices := ESP.resources env in
  ESP.init env identifiers false acts
  = (Returns {| ESP.testflight := false;
                ESP.instruments := connect_instruments devices identifiers;
                ESP.rm := true |},
     (acts
      ++ [ESP.NewManager; ESP.ListResources;
          ESP.Log ("Resource manager used:     " +:+ ESP.manager_text env)
            None;
          ESP.Log ("Detected devices:          " +:+
                   ESP.devices_text env devices) None;
          ESP.Log ("Initializing new connections with ESP with identifiers:"
                   +:+ "      " +:+ ESP.identifiers_text env identifiers
                   +:+ ".") None]
      ++ connect_actions devices identifiers)%list).
Proof.
  intros Hwin Hopens devices. unfold ESP.init. rewrite Hwin.
  change (negb (String.eqb "win32" "win32")) with false. cbv iota.
  rewrite (vbind_returns _ _ acts (acts ++ [ESP.NewManager]) tt)
    by reflexivity.
  erewrite vbind_returns by (now apply list_devices_real).
  simpl default.
  erewrite vbind_returns
    by (now apply (connect_returns env Hopens)).
  unfold ESP.vret. simpl default. f_equal.
  rewrite <- !List.app_assoc. reflexivity.
Qed.

(** On Windows, when every [open_resource] returns, a session from
    [ESP(...)] to [__del__] creates the manager, lists the resources, opens
    one resource for each identifier found, and at the end closes every
    instrument it opened, in the order it opened them, and then the
    manager. *)
Theorem ESP_session_closes_what_it_opened (env : ESP.environment)
    (identifiers : list string) (acts : list ESP.action) :
  ESP.platform env = "win32" ->
  (forall resource_name, ESP.open_error env resource_name = None) ->
  let devices := ESP.resources env in
  ESP.vbind (ESP.init env identifiers false) (ESP.del env) acts
  = (Returns tt,
     (acts
      ++ [ESP.NewManager; ESP.ListResources;
          ESP.Log ("Resource manager used:     " +:+ ESP.manager_text env)
            None;
          ESP.Log ("Detected devices:          " +:+
                   ESP.devices_text env devices) None;
          ESP.Log ("Initializing new connections with ESP with identifiers:"
                   +:+ "      " +:+ ESP.identifiers_text env identifiers
                   +:+ ".") None]
      ++ connect_actions devices identifiers
      ++ concat (map (disconnect_actions env)
                   (connect_instruments devices identifiers))
      ++ [ESP.Log "Disconnecting resource manager" (Some "yellow");
          ESP.CloseManager])%list).
Proof.
  intros Hwin Hopens devices.
  erewrite vbind_returns by (now apply ESP_init_windows).
  unfold ESP.del. cbn [ESP.testflight ESP.instruments ESP.rm negb].
  erewrite vbind_returns
    by (apply close_all_opened, connect_instruments_opened).
  unfold ESP.vbind, ESP.act. cbv beta iota. f_equal.
  fold devices. rewrite <- !List.app_assoc. reflexivity.
Qed.

(** ** What a move sends, and what [verbose] changes *)

Section MoveCommands.

Context {num : Type} `{PyNumber num}.
Implicit Types (self : Motor num) (w : world) (command mode : string).
Implicit Types (parameter : pyarg num).

(** A relative move is sent as an absolute one: the position is queried,
    and the command written is "move to absolute position" ([PA]) with the
    sum as its parameter; the opcode [PR] is not used. *)
Theorem relative_move_is_sent_as_absolute self h degrees verbose w text c p :
  testflight self = false ->
  instrument self = Resource h ->
  oracle w (ncalls w) = Replies (text +:+ String c EmptyString) ->
  py_float text = Some p ->
  allowed self (py_add p degrees) = true ->
  exists l,
    trace (snd (move self degrees "relative" verbose w))
    = (trace (narrated self (py_add p degrees) verbose
                (after_call w (EQuery h (str_int (axis self) +:+ "TP?"))))
       ++ ESleep 1
       :: EWrite h (wire_string (str_int (axis self)) "PA"
                      (py_format (py_add p degrees)) "WS" true)
       :: l)%list.
Proof.
  intros Ht Hi Ho Hp Hok.
  set (w1 := after_call w (EQuery h (str_int (axis self) +:+ "TP?"))).
  assert (Hnew : new_position_of self degrees "relative" w
                 = (Returns (py_add p degrees), w1)).
  { unfold new_position_of.
    change (String.eqb "relative" "absolute") with false.
    change (String.eqb "relative" "relative") with true. cbv iota.
    unfold bind.
    rewrite (get_current_position_real self h w
               (text +:+ String c EmptyString) p) by
      (done || now rewrite drop_last_app).
    reflexivity. }
  rewrite (move_accepted _ _ _ _ _ _ _ Hnew Hok), snd_bind_ret.
  exact (send_command_real_trace self h "move to absolute position"
           (ArgNum (py_add p degrees)) "PA" _ Ht Hi move_opcode).
Qed.

Lemma check_error_code_result self full_command err w w' :
  fst (check_error_code self full_command err w)
  = fst (check_error_code self full_command err w').
Proof.
  unfold check_error_code, bind at 1 3, lift_result.
  destruct (strip_axis_number (axis self) err) as [code|e]; [|reflexivity].
  destruct (negb (String.eqb code "0")); [|reflexivity].
  unfold bind, logprint, emit, ret.
  now destruct (ERROR_CODES !! code).
Qed.

(** The result of [send_command] and the transport calls it makes depend
    on the transport only, not on what has been logged before. *)
Lemma send_command_after_log self h command parameter opcode w message
    colour :
  instrument self = Resource h ->
  COMMANDS !! command = Some opcode ->
  let w0 := after w (ELog message colour) in
  fst (send_command self command parameter w0)
  = fst (send_command self command parameter w)
  /\ transport_calls (snd (send_command self command parameter w0))
     = transport_calls (snd (send_command self command parameter w)).
Proof.
  intros Hi Hop w0. destruct (testflight self) eqn:Ht.
  { rewrite !send_command_testflight by done. split; [reflexivity|].
    apply transport_calls_after_log. }
  split.
  - rewrite !(send_command_real _ h _ _ opcode) by done. cbv zeta.
    set (full := wire_string _ _ _ _ _).
    rewrite (check_error_code_result self full _ _
               (snd (query_command_outcome self h "TE?"
                       (after_write_command self h full
                          (after w (ESleep 1)))))).
    f_equal. f_equal.
    destruct (after_write_command_attempts self h full
                (after w0 (ESleep 1))) as (_ & Hn0 & Ho0).
    destruct (after_write_command_attempts self h full
                (after w (ESleep 1))) as (_ & Hn & Ho).
    destruct (query_command_outcome_attempts self h "TE?"
                (after_write_command self h full (after w0 (ESleep 1))))
      as (_ & _ & ->).
    destruct (query_command_outcome_attempts self h "TE?"
                (after_write_command self h full (after w (ESleep 1))))
      as (_ & _ & ->).
    rewrite Hn0, Ho0, Hn, Ho. reflexivity.
  - rewrite !(send_command_calls self h command parameter opcode)
      by done. cbv zeta. unfold w0. now rewrite transport_calls_after_log.
Qed.

Lemma fst_bind_ret {A B} (m : M A) (b : B) w :
  fst ((m ;; ret b) w)
  = match fst (m w) with
    | Returns _ => Returns b
    | Raises e => Raises e
    end.
Proof. unfold bind, ret. now destruct (m w) as [[a|e] w']. Qed.

(** [verbose] only narrates: with it or without it a move has the same
    outcome and makes the same transport calls. *)
Theorem verbose_only_narrates self h degrees mode w :
  instrument self = Resource h ->
  fst (move self degrees mode true w) = fst (move self degrees mode false w)
  /\ transport_calls (snd (move self degrees mode true w))
     = transport_calls (snd (move self degrees mode false w)).
Proof.
  intros Hi.
  destruct (new_position_of self degrees mode w) as [[target|e] w1]
    eqn:Hnew.
  - destruct (allowed self target) eqn:Hok.
    + rewrite !(move_accepted _ _ _ _ _ _ _ Hnew Hok).
      rewrite !fst_bind_ret, !snd_bind_ret. unfold narrated.
      destruct (send_command_after_log self h "move to absolute position"
                  (ArgNum target) "PA" w1
                  ("Moving axis " +:+ str_int (axis self) +:+
                   " to position " +:+ py_format target +:+ " degrees.")
                  None Hi move_opcode) as [Hres Hcalls].
      cbv zeta in Hres, Hcalls. now rewrite Hres, Hcalls.
    + now rewrite !(move_rejected _ _ _ _ _ _ _ Hnew Hok).
  - assert (Hraise : forall verbose,
              move self degrees mode verbose w = (Raises e, w1)).
    { intros verbose. unfold move, bind at 1. now rewrite Hnew. }
    now rewrite !Hraise.
Qed.

End MoveCommands.

(** ** The further properties on concrete calls *)

(** The controller answers the error query with ["7"]. *)
Lemma send_command_result_by_answer_witness :
  let w := fresh (script [Replies EmptyString; Replies "7"]
                    (Replies "0")) in
  fst (query_command Bench.real_motor "TE?" 1
         (snd (write_command Bench.real_motor "1VA4" 1 (after w (ESleep 1)))))
  = Returns "7"
  /\ fst (send_command Bench.real_motor "set velocity"
            (ArgNum (Whole.Int 4)) w)
     = Returns false.
Proof.
  intros w. split; [reflexivity|].
  set (w1 := snd (write_command Bench.real_motor "1VA4" 1
                    (after w (ESleep 1)))).
  set (w2 := snd (query_command Bench.real_motor "TE?" 1 w1)).
  assert (Hwrite : write_command Bench.real_motor
                     (wire_string (str_int (axis Bench.real_motor)) "VA"
                        (format_arg (ArgNum (Whole.Int 4))) "WS"
                        (str_contains "move" "set velocity")) 1
                     (after w (ESleep 1))
                   = (Returns PyNone, w1)) by reflexivity.
  assert (Hquery : query_command Bench.real_motor "TE?" 1 w1
                   = (Returns "7", w2)) by reflexivity.
  destruct (send_command_result_by_answer Bench.real_motor 0%nat
              "set velocity" (ArgNum (Whole.Int 4)) "VA" w (Returns PyNone)
              w1 "7" w2 eq_refl eq_refl eq_refl Hwrite Hquery)
    as (_ & _ & Hfalse).
  apply Hfalse; discriminate.
Defined.

(** On axis 1 the controller answers ["113"]: code 13 of axis 1. *)
Lemma send_command_reports_known_code_witness :
  let w := fresh (script [Replies EmptyString; Replies "113"]
                    (Replies "0")) in
  strip_axis_number 1 "113" = Returns "13"
  /\ ERROR_CODES !! "13" = Some "MOTOR NOT ENABLED"
  /\ fst (send_command Bench.real_motor "move to absolute position"
            (ArgNum (Whole.Int 10)) w)
     = Returns false.
Proof.
  intros w. split; [reflexivity|]. split; [reflexivity|].
  set (full := wire_string (str_int (axis Bench.real_motor)) "PA"
                 (format_arg (ArgNum (Whole.Int 10))) "WS"
                 (str_contains "move" "move to absolute position")).
  set (w1 := snd (write_command Bench.real_motor full 1
                    (after w (ESleep 1)))).
  set (w2 := snd (query_command Bench.real_motor "TE?" 1 w1)).
  assert (Hwrite : write_command Bench.real_motor full 1
                     (after w (ESleep 1))
                   = (Returns PyNone, w1)) by reflexivity.
  assert (Hquery : query_command Bench.real_motor "TE?" 1 w1
                   = (Returns "113", w2)) by reflexivity.
  assert (Hstrip : strip_axis_number (axis Bench.real_motor) "113"
                   = Returns "13") by reflexivity.
  assert (Hcode : ERROR_CODES !! "13" = Some "MOTOR NOT ENABLED")
    by reflexivity.
  now rewrite (send_command_reports_known_code Bench.real_motor 0%nat
                 "move to absolute position" (ArgNum (Whole.Int 10)) "PA" w
                 (Returns PyNone) w1 "113" w2 "13" "MOTOR NOT ENABLED"
                 eq_refl eq_refl eq_refl Hwrite Hquery Hstrip Hcode).
Defined.

Lemma write_command_attempts_witness :
  instrument Bench.real_motor = Resource 0
  /\ transport_calls
       (snd (write_command Bench.real_motor "1VA4" 1
               (fresh Bench.three_failures)))
     = [EWrite 0 "1VA4"; EWrite 0 "1VA4"; EWrite 0 "1VA4"].
Proof.
  split; [reflexivity|].
  destruct (write_command_attempts Bench.real_motor 0%nat "1VA4"
              (fresh Bench.three_failures) eq_refl)
    as (w' & Hwrite & Hcalls & _).
  rewrite Hwrite. simpl snd. now rewrite Hcalls.
Defined.

Lemma query_command_attempts_witness :
  let w := fresh (script [Fails; Replies "0"] Fails) in
  instrument Bench.real_motor = Resource 0
  /\ fst (query_command Bench.real_motor "TE?" 1 w) = Returns "0"
  /\ transport_calls (snd (query_command Bench.real_motor "TE?" 1 w))
     = [EQuery 0 "TE?"; EQuery 0 "TE?"].
Proof.
  intros w. split; [reflexivity|].
  destruct (query_command_attempts Bench.real_motor 0%nat "TE?" w eq_refl)
    as (w' & Hquery & Hcalls & _).
  rewrite Hquery. simpl snd. now rewrite Hcalls.
Defined.

Lemma send_command_transport_calls_witness :
  let w := fresh (script [Fails; Replies EmptyString; Fails; Fails]
                    (Replies "0")) in
  transport_calls
    (snd (send_command Bench.real_motor "set velocity"
            (ArgNum (Whole.Int 4)) w))
  = [EWrite 0 "1VA4"; EWrite 0 "1VA4"; EQuery 0 "TE?"; EQuery 0 "TE?";
     EQuery 0 "TE?"].
Proof.
  intros w.
  destruct (send_command_transport_calls Bench.real_motor 0%nat
              "set velocity" (ArgNum (Whole.Int 4)) "VA" w
              eq_refl eq_refl eq_refl) as (Hcalls & _).
  now rewrite Hcalls.
Defined.

Lemma send_command_exceptions_witness :
  fst (send_command Bench.real_motor "fly" (ArgStr EmptyString)
         (fresh Bench.healthy))
  = Raises (KeyError "fly")
  /\ ((KeyError "fly" = KeyError "fly" /\ COMMANDS !! "fly" = None)
      \/ (KeyError "fly" = IndexError /\ is_Some (COMMANDS !! "fly"))).
Proof.
  split; [reflexivity|].
  exact (send_command_exceptions Bench.real_motor 0%nat "fly"
           (ArgStr EmptyString) (fresh Bench.healthy) (KeyError "fly")
           eq_refl eq_refl).
Defined.

Lemma send_ASCII_command_does_not_retry_witness :
  fst (send_ASCII_command Bench.real_motor "1TP?"
         (fresh Bench.three_failures))
  = Raises VisaIOError
  /\ transport_calls
       (snd (send_ASCII_command Bench.real_motor "1TP?"
               (fresh Bench.three_failures)))
     = [EWrite 0 "1TP?"].
Proof.
  destruct (send_ASCII_command_does_not_retry Bench.real_motor 0%nat "1TP?"
              (fresh Bench.three_failures) eq_refl eq_refl)
    as (Hfail & _).
  now rewrite (Hfail eq_refl).
Defined.

Lemma get_current_position_reads_answer_witness :
  oracle (fresh Bench.at_170) 0%nat = Replies ("170.0" +:+ Bench.LF)
  /\ fst (get_current_position Bench.real_motor (fresh Bench.at_170))
     = Returns (Whole.Float 170).
Proof.
  split; [reflexivity|].
  destruct (get_current_position_reads_answer Bench.real_motor 0%nat
              (fresh Bench.at_170) eq_refl eq_refl) as (Hreads & _).
  now rewrite (Hreads "170.0" "010"%char (Whole.Float 170) eq_refl eq_refl).
Defined.

Lemma move_exceptions_witness :
  fst (move Bench.real_motor (Whole.Int 20) "relative" true
         (fresh Bench.three_failures))
  = Raises VisaIOError
  /\ (("relative" = "absolute" /\ VisaIOError = IndexError)
      \/ ("relative" = "relative"
          /\ (VisaIOError = IndexError \/ VisaIOError = VisaIOError
              \/ VisaIOError = ValueError))
      \/ ("relative" <> "absolute" /\ "relative" <> "relative"
          /\ VisaIOError = UnboundLocalError)).
Proof.
  split; [reflexivity|].
  exact (move_exceptions Bench.real_motor 0%nat (Whole.Int 20) "relative"
           true (fresh Bench.three_failures) VisaIOError
           eq_refl eq_refl eq_refl).
Defined.

Lemma healthy_answers (k : nat) : Bench.healthy k <> Replies EmptyString.
Proof. unfold Bench.healthy, script. destruct k; discriminate. Qed.

Lemma Motor_init_real_witness :
  (forall k, oracle (fresh Bench.healthy) k <> Replies EmptyString)
  /\ fst (Motor_init "linear polarizer" (Resource 0) 1 Bench.half_turn
            (Whole.Int 4) false (fresh Bench.healthy))
     = Returns Bench.real_motor
  /\ transport_calls
       (snd (Motor_init "linear polarizer" (Resource 0) 1 Bench.half_turn
               (Whole.Int 4) false (fresh Bench.healthy)))
     = [EWrite 0 "1VA4"; EQuery 0 "TE?"; EWrite 0 "1OM0"; EQuery 0 "TE?"].
Proof.
  split; [exact healthy_answers|].
  destruct (Motor_init_real "linear polarizer" 0%nat 1 Bench.half_turn
              (Whole.Int 4) (fresh Bench.healthy) healthy_answers)
    as (w' & Hinit & Hcalls).
  rewrite Hinit. split; [reflexivity|]. simpl snd. now rewrite Hcalls.
Defined.

(** Axis 1 is sent to 150 and reports 150.0; 195.0 is out of the bounds of
    axis 2. *)
Lemma set_does_not_roll_back_witness :
  let w := fresh (script [Replies EmptyString; Replies "0";
                          Replies ("150.0" +:+ Bench.LF)] (Replies "0")) in
  allowed Bench.quarter_motor (Whole.Float 195) = false
  /\ fst (set Bench.real_polarizer (Whole.Int 150) true w) = Returns PyNone
  /\ transport_calls (snd (set Bench.real_polarizer (Whole.Int 150) true w))
     = [EWrite 0 "1PA150;1WS0"; EQuery 0 "TE?"; EQuery 0 "1TP?"].
Proof.
  intros w.
  set (first := move Bench.real_motor (Whole.Int 150) "absolute" true w).
  set (readback := get_current_position Bench.real_motor (snd first)).
  assert (Hfirst : move (lin_polarizer Bench.real_polarizer)
                     (Whole.Int 150) "absolute" true w
                   = (Returns PyNone, snd first)) by reflexivity.
  assert (Hread : get_current_position (lin_polarizer Bench.real_polarizer)
                    (snd first)
                  = (Returns (Whole.Float 150), snd readback))
    by reflexivity.
  assert (Hout : allowed (quart_lambda Bench.real_polarizer)
                   (py_add (Whole.Float 150) (py_int 45)) = false)
    by reflexivity.
  split; [exact Hout|].
  destruct (set_does_not_roll_back Bench.real_polarizer (Whole.Int 150) true
              w PyNone (snd first) (Whole.Float 150) (snd readback)
              Hfirst Hread Hout) as (Hset & _).
  rewrite Hset. split; reflexivity.
Defined.

Lemma set_read_back_failure_witness :
  let w := fresh (script [Replies EmptyString; Replies "0"; Fails]
                    (Replies "0")) in
  fst (set Bench.real_polarizer (Whole.Int 30) true w) = Raises VisaIOError
  /\ transport_calls (snd (set Bench.real_polarizer (Whole.Int 30) true w))
     = [EWrite 0 "1PA30;1WS0"; EQuery 0 "TE?"; EQuery 0 "1TP?"].
Proof.
  intros w.
  set (first := move Bench.real_motor (Whole.Int 30) "absolute" true w).
  assert (Hfirst : move (lin_polarizer Bench.real_polarizer)
                     (Whole.Int 30) "absolute" true w
                   = (Returns PyNone, snd first)) by reflexivity.
  assert (Hfail : oracle (snd first) (ncalls (snd first)) = Fails)
    by reflexivity.
  rewrite (set_read_back_failure Bench.real_polarizer 0%nat (Whole.Int 30)
             true w PyNone (snd first) eq_refl eq_refl Hfirst Hfail).
  split; reflexivity.
Defined.

Lemma define_home_declined_witness :
  "n" <> "Y" /\ "n" <> "y"
  /\ transport_calls
       (snd (define_home Bench.real_motor (Whole.Int 0) "n"
               (fresh Bench.at_170)))
     = [EQuery 0 "1TP?"].
Proof.
  assert (HY : "n" <> "Y") by discriminate.
  assert (Hy : "n" <> "y") by discriminate.
  split; [exact HY|]. split; [exact Hy|].
  destruct (define_home_declined Bench.real_motor (Whole.Int 0) "n"
              (fresh Bench.at_170) HY Hy) as (l & Hl & _).
  reflexivity.
Defined.

Lemma define_home_testflight_saved_witness :
  trace (snd (define_home Bench.simulated_motor (Whole.Int 0) "Y"
                (fresh Bench.healthy)))
  = [ELog ("New home sequence! " +:+ newline) (Some "yellow");
     ELog "New home position saved." (Some "green")].
Proof.
  destruct (define_home_testflight_saved Bench.simulated_motor (Whole.Int 0)
              "Y" (fresh Bench.healthy) (Whole.Float 0) eq_refl eq_refl
              (or_introl eq_refl)) as (w' & Hhome & Htrace & _).
  rewrite Hhome. simpl snd. now rewrite Htrace.
Defined.

(** The position query is answered, the three writes of ["1DH0"] fail, the
    error query is answered ["0"]. *)
Lemma define_home_saved_after_failed_writes_witness :
  let w := fresh (script [Replies ("0.0" +:+ Bench.LF); Fails; Fails; Fails;
                          Replies "0"] (Replies "0")) in
  last (trace (snd (define_home Bench.real_motor (Whole.Int 0) "y" w)))
  = Some (ELog "New home position saved." (Some "green"))
  /\ transport_calls (snd (define_home Bench.real_motor (Whole.Int 0) "y" w))
     = [EQuery 0 "1TP?"; EWrite 0 "1DH0"; EWrite 0 "1DH0"; EWrite 0 "1DH0";
        EQuery 0 "TE?"].
Proof.
  intros w.
  set (w0 := after w (ELog ("New home sequence! " +:+ newline)
                        (Some "yellow"))).
  set (w1 := snd (get_current_position Bench.real_motor w0)).
  assert (Hget : get_current_position Bench.real_motor w0
                 = (Returns (Whole.Float 0), w1)) by reflexivity.
  destruct (define_home_saved_after_failed_writes Bench.real_motor 0%nat
              (Whole.Int 0) "y" w (Whole.Float 0) w1 eq_refl eq_refl
              (or_intror eq_refl) Hget eq_refl eq_refl eq_refl eq_refl)
    as (w2 & Hhome & Hcalls).
  rewrite Hhome. simpl snd. split.
  - unfold after. simpl trace. apply last_snoc.
  - rewrite transport_calls_after_log, Hcalls. reflexivity.
Defined.

Lemma relative_move_is_sent_as_absolute_witness :
  allowed Bench.real_motor (Whole.Float 175) = true
  /\ transport_calls
       (snd (move Bench.real_motor (Whole.Int 5) "relative" true
               (fresh Bench.at_170)))
     = [EQuery 0 "1TP?"; EWrite 0 "1PA175.0;1WS0"; EQuery 0 "TE?"].
Proof.
  assert (Hok : allowed Bench.real_motor
                  (py_add (Whole.Float 170) (Whole.Int 5)) = true)
    by reflexivity.
  assert (Hp : py_float "170.0" = Some (Whole.Float 170)) by reflexivity.
  split; [exact Hok|].
  destruct (relative_move_is_sent_as_absolute Bench.real_motor 0%nat
              (Whole.Int 5) true (fresh Bench.at_170) "170.0" "010"%char
              (Whole.Float 170) eq_refl eq_refl eq_refl Hp Hok)
    as (l & Hl).
  reflexivity.
Defined.

Lemma verbose_only_narrates_witness :
  transport_calls
    (snd (move Bench.real_motor (Whole.Int 10) "absolute" true
            (fresh Bench.healthy)))
  = transport_calls
      (snd (move Bench.real_motor (Whole.Int 10) "absolute" false
              (fresh Bench.healthy))).
Proof.
  exact (proj2 (verbose_only_narrates Bench.real_motor 0%nat (Whole.Int 10)
                  "absolute" (fresh Bench.healthy) eq_refl)).
Defined.

Lemma join_test_finds_a_device_witness :
  occurs tab "GPIB0::2" = false
  /\ "GPIB0::2" <> EmptyString
  /\ listed (ESP.resources two_controllers) "GPIB0::2" = true
  /\ first_match (ESP.resources two_controllers) "GPIB0::2"
     = Some "GPIB0::2::INSTR".
Proof.
  assert (Hne : "GPIB0::2" <> EmptyString) by discriminate.
  split; [reflexivity|]. split; [exact Hne|]. split; [reflexivity|].
  destruct (proj1 (join_test_finds_a_device "GPIB0::2"
                     (ESP.resources two_controllers) eq_refl Hne) eq_refl)
    as (device & Hfind & _).
  reflexivity.
Defined.

(** The second identifier is not among the resources: one instrument
    comes back for two identifiers. *)
Lemma connect_closed_form_witness :
  let self := {| ESP.testflight := false; ESP.instruments := [];
                 ESP.rm := true |} in
  fst (ESP.connect two_controllers self ["GPIB0::2"; "GPIB0::7"]
         (ESP.resources two_controllers) [])
  = Returns (Some [ESP.Opened (Some "GPIB0::2::INSTR")
                     (Some ESP.READ_TERMINATION)
                     (Some ESP.WRITE_TERMINATION) (Some 60000)]).
Proof.
  intros self.
  destruct (connect_closed_form two_controllers (fun _ => eq_refl) self
              ["GPIB0::2"; "GPIB0::7"] (ESP.resources two_controllers) []
              eq_refl) as (Hconnect & _).
  now rewrite Hconnect.
Defined.

Lemma ESP_init_offline_witness :
  fst (ESP.init two_controllers ["GPIB0::1"; "GPIB0::2"] true [])
  = Returns {| ESP.testflight := true;
               ESP.instruments := [ESP.Fake; ESP.Fake];
               ESP.rm := false |}.
Proof.
  destruct (ESP_init_offline two_controllers ["GPIB0::1"; "GPIB0::2"] true
              [] (or_introl eq_refl)) as ((message & colour & Hinit) & _).
  now rewrite Hinit.
Defined.

Lemma ESP_session_closes_what_it_opened_witness :
  ESP.platform two_controllers = "win32"
  /\ List.filter
       (fun a => match a with
                 | ESP.OpenResource _ | ESP.Close _ | ESP.CloseManager
                 | ESP.NewManager => true
                 | _ => false
                 end)
       (snd (ESP.vbind (ESP.init two_controllers ["GPIB0::2"] false)
               (ESP.del two_controllers) []))
     = [ESP.NewManager; ESP.OpenResource (Some "GPIB0::2::INSTR");
        ESP.Close (ESP.Opened (Some "GPIB0::2::INSTR")
                     (Some ESP.READ_TERMINATION)
                     (Some ESP.WRITE_TERMINATION) (Some 60000));
        ESP.CloseManager].
Proof.
  split; [reflexivity|].
  now rewrite (ESP_session_closes_what_it_opened two_controllers
                 ["GPIB0::2"] [] eq_refl (fun _ => eq_refl)).
Defined.
